(** * MailStore API wrapper: the status-token protocol of [mailstore.server]
      and [mailstore.spe]

    The two client classes share, word for word, their private methods
    [__logprint], [__hasToken], [__handleToken], [__callMethod] and the public
    [GetStatus] and [CancelAsync]; they differ in the default port and in the
    catalogue of wrapped operations.  The embedding below follows that text:
    Python values decoded from JSON are a small inductive type, exceptions
    are data, and every method is a computation that reads the requests made
    so far (only [urlopen] depends on them) and emits the events it causes:
    requests sent, lines printed, callback invocations. *)

From Stdlib Require Import ZArith List String Ascii Bool Lia.
From Stdlib Require Import DecimalString.
Import ListNotations.
Open Scope string_scope.
Open Scope Z_scope.
Set Warnings "-register-all".

(** ** Python values *)

(** What [json.loads] produces, which is also what the wrappers pass as
    argument values.  A float is kept as the text [repr] gives for it. *)
Inductive json : Type :=
| JNull
| JBool (b : bool)
| JInt (z : Z)
| JFloat (repr : string)
| JStr (s : string)
| JArr (items : list json)
| JObj (members : list (string * json)).

(** A [dict] in insertion order; the first binding of a key is the one seen. *)
Fixpoint assoc {K V : Type} (eqb : K -> K -> bool) (k : K) (d : list (K * V))
  : option V :=
  match d with
  | [] => None
  | (k', v) :: d' => if eqb k k' then Some v else assoc eqb k d'
  end.

Definition dict_get {V : Type} (k : string) (d : list (string * V)) : option V :=
  assoc String.eqb k d.

Definition keys {K V : Type} (d : list (K * V)) : list K := map fst d.

(** Python truth value of an object. *)
Definition truthy (v : json) : bool :=
  match v with
  | JNull => false
  | JBool b => b
  | JInt z => negb (z =? 0)
  | JFloat r => negb ((r =? "0.0")%string || (r =? "-0.0")%string)
  | JStr s => negb (s =? EmptyString)%string
  | JArr items => match items with [] => false | _ :: _ => true end
  | JObj members => match members with [] => false | _ :: _ => true end
  end.

(** ** [str] and [repr] *)

Definition py_str_int (z : Z) : string := NilZero.string_of_int (Z.to_int z).

Definition hex_digit (upper : bool) (n : N) : ascii :=
  if (n <? 10)%N then ascii_of_N (48 + n)
  else ascii_of_N ((if upper then 55 else 87) + n).

Definition hex2 (upper : bool) (c : ascii) : string :=
  let n := N_of_ascii c in
  String (hex_digit upper (n / 16)) (String (hex_digit upper (n mod 16)) EmptyString).

Fixpoint contains_char (c : ascii) (s : string) : bool :=
  match s with
  | EmptyString => false
  | String c' s' => Ascii.eqb c c' || contains_char c s'
  end.

Definition squote : ascii := "'"%char.
Definition dquote : ascii := ascii_of_N 34.
Definition backslash : ascii := "\"%char.

(** [repr] of a [str]: bytes above 127 belong to the UTF-8 encoding of a
    character and are kept as they are.  (Python escapes those characters
    beyond ASCII that are not printable, a no-break space for one; a string
    of bytes does not tell them apart, and such a character inside a list or
    [dict] argument is rendered here unescaped.) *)
Fixpoint repr_escape (q : ascii) (s : string) : string :=
  match s with
  | EmptyString => EmptyString
  | String c s' =>
      let n := N_of_ascii c in
      (if Ascii.eqb c backslash then String backslash (String backslash EmptyString)
       else if Ascii.eqb c q then String backslash (String q EmptyString)
       else if (n =? 10)%N then String backslash "n"
       else if (n =? 13)%N then String backslash "r"
       else if (n =? 9)%N then String backslash "t"
       else if (n <? 32)%N || (n =? 127)%N then String backslash ("x" ++ hex2 false c)
       else String c EmptyString) ++ repr_escape q s'
  end.

Definition py_repr_str (s : string) : string :=
  let q := if contains_char squote s && negb (contains_char dquote s)
           then dquote else squote in
  String q (repr_escape q s) ++ String q EmptyString.

Definition join (sep : string) (l : list string) : string := String.concat sep l.

Fixpoint py_repr (v : json) : string :=
  match v with
  | JNull => "None"
  | JBool true => "True"
  | JBool false => "False"
  | JInt z => py_str_int z
  | JFloat r => r
  | JStr s => py_repr_str s
  | JArr items => "[" ++ join ", " (map py_repr items) ++ "]"
  | JObj members =>
      "{" ++ join ", "
        (map (fun kv : string * json =>
                py_repr_str (fst kv) ++ ": " ++ py_repr (snd kv)) members)
      ++ "}"
  end.

Definition py_str (v : json) : string :=
  match v with
  | JStr s => s
  | _ => py_repr v
  end.

(** ** [urllib.parse.urlencode] *)

(** On strings of bytes, the UTF-8 encoding of a [str].  A [str] that has no
    encoding (a lone surrogate), on which [quote_plus] raises, has no
    counterpart here. *)

Definition always_safe (c : ascii) : bool :=
  let n := N_of_ascii c in
  ((65 <=? n) && (n <=? 90) || (97 <=? n) && (n <=? 122)
   || (48 <=? n) && (n <=? 57))%N
  || contains_char c "_.-~".

Fixpoint quote_plus (s : string) : string :=
  match s with
  | EmptyString => EmptyString
  | String c s' =>
      (if always_safe c then String c EmptyString
       else if Ascii.eqb c " "%char then "+"
       else String "%"%char (hex2 true c)) ++ quote_plus s'
  end.

Definition urlencode (query : list (string * json)) : string :=
  join "&" (map (fun kv : string * json =>
                   quote_plus (fst kv) ++ "=" ++ quote_plus (py_str (snd kv)))
                query).

(** ** Exceptions *)

(** Modelled from the spec: the module [mailstore.errors], imported by both
    clients, is not among the sources.  The spec's error taxonomy has a "no
    token" error, raised on a response that fails the token presence check;
    the code raises it as [MailStoreNoTokenError(jsonValues)] and wraps a
    transport failure [e] as [MailStoreBaseError(e)].  Both are taken as
    exception classes that carry their constructor argument.  The other
    constructors are the interpreter's [TypeError], [KeyError] and
    [AttributeError], [urllib.error.HTTPError], and [Foreign] for any other
    exception class, named, that [urlopen], the decoding of a body or a
    callback may raise. *)
Inductive exn : Type :=
| TypeError
| KeyError (key : json)
| AttributeError
| HTTPError (code : Z) (msg : string)
| Foreign (name : string)
| MailStoreBaseError (cause : exn)
| MailStoreNoTokenError (jsonValues : json).

Inductive result (A : Type) : Type :=
| Ok (a : A)
| Err (e : exn).
Arguments Ok {A} a.
Arguments Err {A} e.

(** [k in v] for a [str] key. *)
Definition py_in (k : string) (v : json) : result bool :=
  match v with
  | JObj members =>
      Ok (match dict_get k members with Some _ => true | None => false end)
  | JArr items =>
      Ok (existsb (fun x => match x with
                            | JStr s => (s =? k)%string
                            | _ => false
                            end) items)
  | JStr s => Ok (match index 0 k s with Some _ => true | None => false end)
  | JNull | JBool _ | JInt _ | JFloat _ => Err TypeError
  end.

(** [v[k]] for a [str] key. *)
Definition py_getitem (v : json) (k : string) : result json :=
  match v with
  | JObj members =>
      match dict_get k members with
      | Some x => Ok x
      | None => Err (KeyError (JStr k))
      end
  | _ => Err TypeError
  end.

(** [s + v] where [s] is a [str]. *)
Definition py_add_str (s : string) (v : json) : result string :=
  match v with
  | JStr s' => Ok (s ++ s')
  | _ => Err TypeError
  end.

(** [v == s] where [s] is a [str]. *)
Definition py_eq_str (v : json) (s : string) : bool :=
  match v with
  | JStr s' => (s' =? s)%string
  | _ => false
  end.

Definition is_None (v : json) : bool :=
  match v with
  | JNull => true
  | _ => false
  end.

(** ** Events and computations *)

Record Request : Type := mkRequest { url : string; data : string }.

(** What a run of the client does to the outside world, in order. *)
Inductive Event : Type :=
| Sent (r : Request)
| Printed (level : string) (args : list json)
| Notified (jsonValues : json).

(** What [urlopen] and the decoding that follows it come to: a body that
    decodes to a value, a body that does not (the exception of [read],
    [decode] or [json.loads]), an [HTTPError], or any other exception.  A
    body is known by the value it decodes to: the DEBUG line that prints the
    text of the response shows that value in its place. *)
Inductive Reply : Type :=
| Body (jsonValues : json)
| BadBody (e : exn)
| RaisesHTTPError (code : Z) (msg : string) (fp_method : string)
| RaisesOther (e : exn).

(** The remote side: its answer to a request, given the requests before it. *)
Definition Transport : Type := list Request -> Request -> Reply.

Inductive Outcome (A : Type) : Type :=
| Return (a : A)
| Raise (e : exn)
| OutOfFuel.
Arguments Return {A} a.
Arguments Raise {A} e.
Arguments OutOfFuel {A}.

Definition requests (es : list Event) : list Request :=
  flat_map (fun ev => match ev with Sent r => [r] | _ => [] end) es.

Definition notifications (es : list Event) : list json :=
  flat_map (fun ev => match ev with Notified j => [j] | _ => [] end) es.

(** The events other than log lines. *)
Definition quiet (es : list Event) : list Event :=
  filter (fun ev => match ev with Printed _ _ => false | _ => true end) es.

(** A computation sees the requests made so far, which is all the remote
    side's answer depends on, and yields an outcome together with the events
    it adds. *)
Definition M (A : Type) : Type := list Request -> Outcome A * list Event.

Definition ret {A : Type} (a : A) : M A := fun _ => (Return a, []).

Definition raise {A : Type} (e : exn) : M A := fun _ => (Raise e, []).

Definition out_of_fuel {A : Type} : M A := fun _ => (OutOfFuel, []).

Definition emit (ev : Event) : M unit := fun _ => (Return tt, [ev]).

Definition history : M (list Request) := fun rs => (Return rs, []).

Definition lift {A : Type} (r : result A) : M A :=
  match r with
  | Ok a => ret a
  | Err e => raise e
  end.

Definition bind {A B : Type} (m : M A) (k : A -> M B) : M B :=
  fun rs =>
    match m rs with
    | (Return a, es) =>
        let (o, es') := k a (rs ++ requests es)%list in (o, (es ++ es')%list)
    | (Raise e, es) => (Raise e, es)
    | (OutOfFuel, es) => (OutOfFuel, es)
    end.

Declare Scope py_scope.
Delimit Scope py_scope with py.
Notation "x <- c1 ;; c2" := (bind c1 (fun x => c2))
  (at level 61, c1 at next level, right associativity) : py_scope.
Notation "c1 ;; c2" := (bind c1 (fun _ => c2))
  (at level 61, right associativity) : py_scope.
Open Scope py_scope.

Definition outcome {A : Type} (m : M A) (rs : list Request) : Outcome A :=
  fst (m rs).

Definition emitted {A : Type} (m : M A) (rs : list Request) : list Event :=
  snd (m rs).

(** ** The client *)

(** A callable given as [callbackStatus]: its [__name__], when it has one,
    and the exception it raises on a response, when it raises.  A callback
    is taken to leave the response it is handed as it is. *)
Record Callback : Type := mkCallback {
  cb__name__ : option string;
  cb_raises : json -> option exn
}.

(** The attributes [__init__] stores and the methods below read.
    [callbackStatus] is [None] for a value that is not callable. *)
Record Client : Type := mkClient {
  username : string;
  password : string;
  host : string;
  port : Z;
  autoHandleToken : bool;
  waitTime : Z;
  callbackStatus : option Callback;
  logLevel : Z
}.

Definition logLevels : list (Z * string) :=
  [(0, "NONE"); (1, "ERROR"); (2, "WARNING"); (3, "INFO"); (4, "DEBUG")].

(** [mailstore.server.Client()] and [mailstore.spe.Client()] with the
    defaults of their [__init__]. *)
Definition server_Client : Client :=
  mkClient "admin" "admin" "127.0.0.1" 8463 true 1000 None 2.

Definition spe_Client : Client :=
  mkClient "admin" "admin" "127.0.0.1" 8474 true 1000 None 2.

Section Methods.

Variable self : Client.
Variable urlopen : Transport.

Definition __logprint (level : Z) (args : list json) : M unit :=
  if level <=? logLevel self then
    match assoc Z.eqb level logLevels with
    | Some name => emit (Printed name args)
    | None => raise (KeyError (JInt level))
    end
  else ret tt.

Definition __hasToken (jsonValues : json) : M bool :=
  c1 <- lift (py_in "token" jsonValues) ;;
  c2 <- (if c1 : bool
         then tok <- lift (py_getitem jsonValues "token") ;; ret (negb (is_None tok))
         else ret false) ;;
  c3 <- (if c2 : bool
         then lift (py_in "statusVersion" jsonValues)
         else ret false) ;;
  if c3 : bool then
    tok <- lift (py_getitem jsonValues "token") ;;
    msg <- lift (py_add_str "__hasToken: Status token " tok) ;;
    sv <- lift (py_getitem jsonValues "statusVersion") ;;
    __logprint 3 [JStr (msg ++ " detected. statusVersion is " ++ py_str sv)] ;;
    ret true
  else
    __logprint 3 [JStr "__hasToken: No status token detected"] ;;
    ret false.

(** The block [if callable(self.callbackStatus): ...] that [__handleToken]
    has twice, for the "first" and for the "refreshed" status. *)
Definition run_callbackStatus (which : string) (jsonValues : json) : M unit :=
  match callbackStatus self with
  | Some cb =>
      name <- lift (match cb__name__ cb with
                    | Some n => Ok n
                    | None => Err AttributeError
                    end) ;;
      __logprint 3 [JStr ("__handleToken: Executing callback function "
                          ++ String dquote name ++ String dquote " for "
                          ++ which ++ " status.")] ;;
      emit (Notified jsonValues) ;;
      match cb_raises cb jsonValues with
      | Some e => raise e
      | None => ret tt
      end
  | None => ret tt
  end.

(** The list comprehension of [__callMethod]:
    [[(key, arguments[key]) for key in list(arguments) if arguments[key]]]. *)
Definition marshal (arguments : list (string * json)) : list (string * json) :=
  flat_map (fun key =>
              match dict_get key arguments with
              | Some v => if truthy v then [(key, v)] else []
              | None => []
              end) (keys arguments).

(** [waitTime if waitTime is not None else self.waitTime], the first line of
    [__handleToken]. *)
Definition handleToken_waitTime (waitTime' : option Z) : Z :=
  match waitTime' with
  | Some w => w
  | None => waitTime self
  end.

(** [waitTime if waitTime else self.waitTime], the first line of
    [GetStatus]. *)
Definition GetStatus_waitTime (waitTime' : option Z) : Z :=
  match waitTime' with
  | Some w => if truthy (JInt w) then w else waitTime self
  | None => waitTime self
  end.

Definition api_url (mode method : string) : string :=
  "https://" ++ host self ++ ":" ++ py_str_int (port self)
  ++ "/api/" ++ mode ++ "/" ++ method.

(** The methods call one another: [__callMethod] hands a token to
    [__handleToken], whose loop calls [GetStatus], which calls [__callMethod].
    [fuel] bounds the depth of these calls and the turns of the loop; it is
    spent where one method calls another. *)
Fixpoint __callMethod (fuel : nat) (method : string)
    (arguments : list (string * json)) (mode : string)
    (autoHandleToken' : option bool) {struct fuel} : M json :=
  let autoHandleToken' :=
    match autoHandleToken' with
    | Some b => b
    | None => autoHandleToken self
    end in
  let url := api_url mode method in
  let data := urlencode (marshal arguments) in
  __logprint 4 [JStr "__callMethod: METHOD:"; JStr method] ;;
  __logprint 4 [JStr "__callMethod: ARGUMENTS:"; JObj arguments] ;;
  __logprint 3 [JStr "__callMethod: HTTP POST:"; JStr url; JStr data] ;;
  rs <- history ;;
  emit (Sent (mkRequest url data)) ;;
  jsonValues <-
    match urlopen rs (mkRequest url data) with
    | RaisesHTTPError code msg fp_method =>
        __logprint 1 [JStr (py_str_int code ++ " " ++ msg ++ " " ++ url ++ " "
                            ++ fp_method ++ " " ++ data)] ;;
        raise (HTTPError code msg)
    | RaisesOther e =>
        __logprint 1 [JStr "Unhandled Exception"] ;;
        raise (MailStoreBaseError e)
    | BadBody e => raise e
    | Body decoded =>
        __logprint 4 [JStr "__callMethod: HTTP RESPONSE:"; decoded] ;;
        ret decoded
    end ;;
  tok <- __hasToken jsonValues ;;
  returnData <-
    (if tok : bool then
       if autoHandleToken' : bool then
         __logprint 3 [JStr "__callMethod: Automatic token handling is ENABLED."] ;;
         match fuel with
         | O => out_of_fuel
         | S fuel' => __handleToken fuel' jsonValues None
         end
       else
         __logprint 3 [JStr "__callMethod: Automatic token handling is DISABLED."] ;;
         ret jsonValues
     else ret jsonValues) ;;
  __logprint 3 [JStr ("__callMethod: Returning data to caller "
                      ++ String dquote method ++ String dquote EmptyString)] ;;
  __logprint 4 [JStr "__callMethod: "; returnData] ;;
  ret returnData

with __handleToken (fuel : nat) (jsonValues : json) (waitTime' : option Z)
    {struct fuel} : M json :=
  let waitTime' := handleToken_waitTime waitTime' in
  run_callbackStatus "first" jsonValues ;;
  jsonValues <-
    match fuel with
    | O => out_of_fuel
    | S fuel' => while_running fuel' jsonValues waitTime'
    end ;;
  tok <- lift (py_getitem jsonValues "token") ;;
  msg <- lift (py_add_str "__handleToken: Task with token " tok) ;;
  __logprint 3 [JStr (msg ++ " finished.")] ;;
  ret jsonValues

(** [while jsonValues["statusCode"] == "running": ...], yielding the value of
    [jsonValues] on leaving the loop. *)
with while_running (fuel : nat) (jsonValues : json) (waitTime' : Z)
    {struct fuel} : M json :=
  statusCode <- lift (py_getitem jsonValues "statusCode") ;;
  if py_eq_str statusCode "running" then
    tok <- lift (py_getitem jsonValues "token") ;;
    msg <- lift (py_add_str "__handleToken: Refreshing status for task with token " tok) ;;
    __logprint 3 [JStr (msg ++ ".")] ;;
    match fuel with
    | O => out_of_fuel
    | S fuel' =>
        jsonValues <- GetStatus fuel' jsonValues (Some waitTime') ;;
        __logprint 4 [JStr "__handleToken:"; jsonValues] ;;
        run_callbackStatus "refreshed" jsonValues ;;
        while_running fuel' jsonValues waitTime'
    end
  else ret jsonValues

with GetStatus (fuel : nat) (jsonValues : json) (waitTime' : option Z)
    {struct fuel} : M json :=
  let waitTime' := GetStatus_waitTime waitTime' in
  tok <- __hasToken jsonValues ;;
  if tok : bool then
    sv <- lift (py_getitem jsonValues "statusVersion") ;;
    let statusVersion := py_str sv in
    token <- lift (py_getitem jsonValues "token") ;;
    match fuel with
    | O => out_of_fuel
    | S fuel' =>
        __callMethod fuel' "get-status"
          [("token", token);
           ("millisecondsTimeout", JInt waitTime');
           ("lastKnownStatusVersion", JStr statusVersion)]
          EmptyString (Some false)
    end
  else
    __logprint 1 [JStr "GetStatus: Cannot get status, no token found!"] ;;
    raise (MailStoreNoTokenError jsonValues).

Definition CancelAsync (fuel : nat) (jsonValues : json) : M json :=
  tok <- __hasToken jsonValues ;;
  if tok : bool then
    token <- lift (py_getitem jsonValues "token") ;;
    __callMethod fuel "cancel-async" [("token", token)] EmptyString None
  else
    __logprint 1 [JStr "CancelAsync: Cannot cancel, no token found!"] ;;
    raise (MailStoreNoTokenError jsonValues).

End Methods.

(** ** Argument conversions of the wrapped operations *)

(** [sep.join(items)]: every item has to be a [str]. *)
Fixpoint py_join_items (items : list json) : result (list string) :=
  match items with
  | [] => Ok []
  | JStr s :: rest =>
      match py_join_items rest with
      | Ok l => Ok (s :: l)
      | Err e => Err e
      end
  | _ :: _ => Err TypeError
  end.

Definition py_join (sep : string) (items : list json) : result string :=
  match py_join_items items with
  | Ok l => Ok (join sep l)
  | Err e => Err e
  end.

(** The two lines several wrappers start with:
    [if isinstance(v, (list, tuple)): v = ",".join(v)].  Among the values of
    [json] the sequences are the arrays. *)
Definition join_list_argument (v : json) : M json :=
  match v with
  | JArr items => s <- lift (py_join "," items) ;; ret (JStr s)
  | _ => ret v
  end.

(** ["true" if v else "false"]. *)
Definition true_or_false (v : json) : json :=
  JStr (if truthy v then "true" else "false").

(** [dryRun in ["True", "true", True, 1]]: membership is by [==], under
    which [True], [1] and [1.0] are equal. *)
Definition in_true_values (dryRun : json) : bool :=
  match dryRun with
  | JStr s => (s =? "True")%string || (s =? "true")%string
  | JBool b => b
  | JInt z => z =? 1
  | JFloat r => (r =? "1.0")%string
  | JNull | JArr _ | JObj _ => false
  end.

(** The realm [__init__] registers with the password manager:
    [(None, "https://{}:{}".format(host, port), username, password)]. *)
Definition realm (self : Client) : option string * string * string * string :=
  (None, "https://" ++ host self ++ ":" ++ py_str_int (port self),
   username self, password self).

Definition realm_uri (self : Client) : string := snd (fst (fst (realm self))).

(** ** Wrapped operations *)

Module Server.

Definition GetChildFolders (self : Client) (urlopen : Transport) (fuel : nat)
    (folder maxLevels : json) (autoHandleToken' : option bool) : M json :=
  __callMethod self urlopen fuel "GetChildFolders"
    [("folder", folder); ("maxLevels", maxLevels)] "invoke" autoHandleToken'.

Definition GetProfiles (self : Client) (urlopen : Transport) (fuel : nat)
    (raw : json) (autoHandleToken' : option bool) : M json :=
  __callMethod self urlopen fuel "GetProfiles" [("raw", raw)] "invoke"
    autoHandleToken'.

Definition CreateProfile (self : Client) (urlopen : Transport) (fuel : nat)
    (properties raw : json) (autoHandleToken' : option bool) : M json :=
  let raw := true_or_false raw in
  __callMethod self urlopen fuel "CreateProfile"
    [("properties", properties); ("raw", raw)] "invoke" autoHandleToken'.

Definition RunTemporaryProfile (self : Client) (urlopen : Transport) (fuel : nat)
    (properties raw : json) (autoHandleToken' : option bool) : M json :=
  let raw := true_or_false raw in
  __callMethod self urlopen fuel "RunTemporaryProfile"
    [("properties", properties); ("raw", raw)] "invoke" autoHandleToken'.

Definition SetUserEmailAddresses (self : Client) (urlopen : Transport)
    (fuel : nat) (userName emailAddresses : json)
    (autoHandleToken' : option bool) : M json :=
  emailAddresses <- join_list_argument emailAddresses ;;
  __callMethod self urlopen fuel "SetUserEmailAddresses"
    [("userName", userName); ("emailAddresses", emailAddresses)] "invoke"
    autoHandleToken'.

Definition SetUserPop3UserNames (self : Client) (urlopen : Transport)
    (fuel : nat) (userName pop3UserNames : json)
    (autoHandleToken' : option bool) : M json :=
  pop3UserNames <- join_list_argument pop3UserNames ;;
  __callMethod self urlopen fuel "SetUserPop3UserNames"
    [("userName", userName); ("pop3UserNames", pop3UserNames)] "invoke"
    autoHandleToken'.

Definition SetUserPrivileges (self : Client) (urlopen : Transport) (fuel : nat)
    (userName privileges : json) (autoHandleToken' : option bool) : M json :=
  privileges <- join_list_argument privileges ;;
  __callMethod self urlopen fuel "SetUserPrivileges"
    [("userName", userName); ("privileges", privileges)] "invoke"
    autoHandleToken'.

Definition SetUserPrivilegesOnFolder (self : Client) (urlopen : Transport)
    (fuel : nat) (userName folder privileges : json)
    (autoHandleToken' : option bool) : M json :=
  privileges <- join_list_argument privileges ;;
  __callMethod self urlopen fuel "SetUserPrivilegesOnFolder"
    [("userName", userName); ("folder", folder); ("privileges", privileges)]
    "invoke" autoHandleToken'.

Definition SyncUsersWithDirectoryServices (self : Client) (urlopen : Transport)
    (fuel : nat) (dryRun : json) (autoHandleToken' : option bool) : M json :=
  let dryRun := true_or_false dryRun in
  __callMethod self urlopen fuel "SyncUsersWithDirectoryServices"
    [("dryRun", dryRun)] "invoke" autoHandleToken'.

End Server.

Module Spe.

Definition GetChildFolders (self : Client) (urlopen : Transport) (fuel : nat)
    (instanceID folder maxLevels : json) (autoHandleToken' : option bool)
  : M json :=
  __callMethod self urlopen fuel "GetChildFolders"
    [("instanceID", instanceID); ("folder", folder); ("maxLevels", maxLevels)]
    "invoke" autoHandleToken'.

Definition GetProfiles (self : Client) (urlopen : Transport) (fuel : nat)
    (instanceID raw : json) (autoHandleToken' : option bool) : M json :=
  __callMethod self urlopen fuel "GetProfiles"
    [("instanceID", instanceID); ("raw", raw)] "invoke" autoHandleToken'.

Definition CreateUser (self : Client) (urlopen : Transport) (fuel : nat)
    (instanceID userName privileges fullName distinguishedName authentication
       password' : json)
    (autoHandleToken' : option bool) : M json :=
  privileges <- join_list_argument privileges ;;
  __callMethod self urlopen fuel "CreateUser"
    [("instanceID", instanceID); ("userName", userName);
     ("privileges", privileges); ("fullName", fullName);
     ("distinguishedName", distinguishedName);
     ("authentication", authentication); ("password", password')]
    "invoke" autoHandleToken'.

Definition SetUserEmailAddresses (self : Client) (urlopen : Transport)
    (fuel : nat) (instanceID userName emailAddresses : json)
    (autoHandleToken' : option bool) : M json :=
  emailAddresses <- join_list_argument emailAddresses ;;
  __callMethod self urlopen fuel "SetUserEmailAddresses"
    [("instanceID", instanceID); ("userName", userName);
     ("emailAddresses", emailAddresses)] "invoke" autoHandleToken'.

Definition SetUserPop3UserNames (self : Client) (urlopen : Transport)
    (fuel : nat) (instanceID userName pop3UserNames : json)
    (autoHandleToken' : option bool) : M json :=
  pop3UserNames <- join_list_argument pop3UserNames ;;
  __callMethod self urlopen fuel "SetUserPop3UserNames"
    [("instanceID", instanceID); ("userName", userName);
     ("pop3UserNames", pop3UserNames)] "invoke" autoHandleToken'.

Definition SetUserPrivileges (self : Client) (urlopen : Transport) (fuel : nat)
    (instanceID userName privileges : json) (autoHandleToken' : option bool)
  : M json :=
  privileges <- join_list_argument privileges ;;
  __callMethod self urlopen fuel "SetUserPrivileges"
    [("instanceID", instanceID); ("userName", userName);
     ("privileges", privileges)] "invoke" autoHandleToken'.

Definition SetUserPrivilegesOnFolder (self : Client) (urlopen : Transport)
    (fuel : nat) (instanceID userName folder privileges : json)
    (autoHandleToken' : option bool) : M json :=
  privileges <- join_list_argument privileges ;;
  __callMethod self urlopen fuel "SetUserPrivilegesOnFolder"
    [("instanceID", instanceID); ("userName", userName); ("folder", folder);
     ("privileges", privileges)] "invoke" autoHandleToken'.

Definition SyncUsersWithDirectoryServices (self : Client) (urlopen : Transport)
    (fuel : nat) (instanceID dryRun : json) (autoHandleToken' : option bool)
  : M json :=
  let dryRun := if in_true_values dryRun then JStr "true" else dryRun in
  __callMethod self urlopen fuel "SyncUsersWithDirectoryServices"
    [("instanceID", instanceID); ("dryRun", dryRun)] "invoke" autoHandleToken'.

End Spe.

(** ** Vocabulary of the statements *)

(** The verdict of the token presence check on a response.  It is read off
    [__hasToken] itself; [hasToken_run] shows that neither the client nor the
    requests made so far change it. *)
Definition token_check (jsonValues : json) : Outcome bool :=
  outcome (__hasToken server_Client jsonValues) [].

(** Only log lines. *)
Definition silent (es : list Event) : Prop := quiet es = [].

(** The callback, if there is one, has a [__name__] and returns normally on
    the response. *)
Definition callback_returns (self : Client) (jsonValues : json) : Prop :=
  match callbackStatus self with
  | Some cb => cb__name__ cb <> None /\ cb_raises cb jsonValues = None
  | None => True
  end.

(** The request [GetStatus] makes for a response. *)
Definition status_request (self : Client) (token : json) (waitTime' : Z)
    (statusVersion : json) : Request :=
  mkRequest (api_url self EmptyString "get-status")
    (urlencode (marshal [("token", token);
                         ("millisecondsTimeout", JInt waitTime');
                         ("lastKnownStatusVersion", JStr (py_str statusVersion))])).

(** A remote side that answers the n-th request with the n-th reply of a
    list, and refuses connections after that. *)
Definition scripted (replies : list Reply) : Transport :=
  fun rs _ => nth (List.length rs) replies (RaisesOther (Foreign "URLError")).

Definition task (statusCode token : string) (statusVersion : Z) : json :=
  JObj [("statusCode", JStr statusCode); ("token", JStr token);
        ("statusVersion", JInt statusVersion)].

(** The scenario of the spec: a task that runs, runs, and completes. *)
Definition scenario_initial : json := task "running" "T1" 1.

Definition scenario_refresh1 : json := task "running" "T1" 2.

Definition scenario_refresh2 : json :=
  JObj [("statusCode", JStr "completed"); ("token", JStr "T1");
        ("statusVersion", JInt 3); ("result", JObj [("id", JInt 42)])].

Definition recorder : Callback := mkCallback (Some "progress") (fun _ => None).

(** The log lines of a call of [__logprint], of [__hasToken] and the events
    of the callback block: none of the three reads the requests made so far
    (lemmas [logprint_run], [hasToken_run], [callback_run]). *)
Definition log_lines (self : Client) (level : Z) (args : list json) : list Event :=
  emitted (__logprint self level args) [].

Definition hasToken_lines (self : Client) (jsonValues : json) : list Event :=
  emitted (__hasToken self jsonValues) [].

Definition callback_events (self : Client) (which : string) (jsonValues : json)
  : list Event :=
  emitted (run_callbackStatus self which jsonValues) [].

(** A client like [mailstore.server.Client(callbackStatus=recorder)]. *)
Definition recording_Client : Client :=
  mkClient "admin" "admin" "127.0.0.1" 8463 true 1000 (Some recorder) 2.

(** What the callback is told of a response: nothing without a callback. *)
Definition notified (self : Client) (jsonValues : json) : list Event :=
  match callbackStatus self with
  | Some _ => [Notified jsonValues]
  | None => []
  end.

(** The request [__callMethod] makes. *)
Definition request_of (self : Client) (method : string)
    (arguments : list (string * json)) (mode : string) : Request :=
  mkRequest (api_url self mode method) (urlencode (marshal arguments)).

(** The shape [__handleToken] looks for in a response. *)
Definition has_statusCode (jsonValues : json) : Prop :=
  exists statusCode, py_getitem jsonValues "statusCode" = Ok statusCode.

Definition terminal (jsonValues : json) : Prop :=
  exists statusCode,
    py_getitem jsonValues "statusCode" = Ok statusCode
    /\ py_eq_str statusCode "running" = false.

Definition has_string_token (jsonValues : json) : Prop :=
  exists tok, py_getitem jsonValues "token" = Ok (JStr tok).

(** The exceptions a response of another shape makes [__handleToken] raise. *)
Definition shape_error (e : exn) : Prop :=
  e = KeyError (JStr "statusCode") \/ e = KeyError (JStr "token")
  \/ e = TypeError.

(** [polled self urlopen wt jv rs jv' rs' n]: entered on the response [jv]
    with the requests [rs] made, the loop of [__handleToken] makes [n] turns,
    in each of which the refresh and the callback return, and is then at the
    response [jv'] with the requests [rs'] made. *)
Inductive polled (self : Client) (urlopen : Transport) (wt : Z)
  : json -> list Request -> json -> list Request -> nat -> Prop :=
| polled_O jv rs : polled self urlopen wt jv rs jv rs O
| polled_S jv rs statusCode tok refreshed es jv' rs' n :
    py_getitem jv "statusCode" = Ok statusCode ->
    py_eq_str statusCode "running" = true ->
    py_getitem jv "token" = Ok (JStr tok) ->
    GetStatus self urlopen 1 jv (Some wt) rs = (Return refreshed, es) ->
    callback_returns self refreshed ->
    polled self urlopen wt refreshed (rs ++ requests es)%list jv' rs' n ->
    polled self urlopen wt jv rs jv' rs' (S n).

(** Every event a computation adds satisfies [P], whatever requests were
    made before. *)
Definition all_events {A : Type} (P : Event -> Prop) (m : M A) : Prop :=
  forall rs, Forall P (snd (m rs)).

(** What a client may do to the outside world: send to an address under the
    URI its [__init__] registered the credentials for, print a line of a level
    that its log level admits (the levels in use are 1, 3 and 4), and call its
    callback if it has one. *)
Definition event_within (self : Client) (ev : Event) : Prop :=
  match ev with
  | Sent r =>
      exists mode method,
        url r = realm_uri self ++ "/api/" ++ mode ++ "/" ++ method
  | Printed name _ =>
      exists level,
        (level = 1 \/ level = 3 \/ level = 4)
        /\ level <= logLevel self
        /\ assoc Z.eqb level logLevels = Some name
  | Notified _ => callbackStatus self <> None
  end.

(** A status request with the wait time [w], or no request at all. *)
Definition status_poll (self : Client) (w : Z) (ev : Event) : Prop :=
  match ev with
  | Sent r => exists token statusVersion, r = status_request self token w statusVersion
  | Printed _ _ | Notified _ => True
  end.

(** How often a character occurs in a string. *)
Fixpoint count_char (c : ascii) (s : string) : nat :=
  match s with
  | EmptyString => O
  | String c' s' => ((if Ascii.eqb c c' then 1 else 0) + count_char c s')%nat
  end.

(** * Properties *)

(** ** Events *)

Lemma quiet_app (es1 es2 : list Event) :
  quiet (es1 ++ es2)%list = (quiet es1 ++ quiet es2)%list.
Proof. unfold quiet. apply filter_app. Qed.

Lemma requests_app (es1 es2 : list Event) :
  requests (es1 ++ es2)%list = (requests es1 ++ requests es2)%list.
Proof. unfold requests. apply flat_map_app. Qed.

Lemma notifications_app (es1 es2 : list Event) :
  notifications (es1 ++ es2)%list = (notifications es1 ++ notifications es2)%list.
Proof. unfold notifications. apply flat_map_app. Qed.

Lemma requests_quiet (es : list Event) : requests (quiet es) = requests es.
Proof.
  induction es as [|ev es IH]; [reflexivity|].
  destruct ev; simpl; rewrite ?IH; reflexivity.
Qed.

Lemma notifications_quiet (es : list Event) :
  notifications (quiet es) = notifications es.
Proof.
  induction es as [|ev es IH]; [reflexivity|].
  destruct ev; simpl; rewrite ?IH; reflexivity.
Qed.

Lemma quiet_Sent r es : quiet (Sent r :: es) = Sent r :: quiet es.
Proof. reflexivity. Qed.

Lemma quiet_Notified j es : quiet (Notified j :: es) = Notified j :: quiet es.
Proof. reflexivity. Qed.

Lemma quiet_Printed level args es : quiet (Printed level args :: es) = quiet es.
Proof. reflexivity. Qed.

Lemma quiet_nil : quiet [] = [].
Proof. reflexivity. Qed.

Lemma silent_nil : silent [].
Proof. reflexivity. Qed.

Lemma silent_app (es1 es2 : list Event) :
  silent es1 -> silent es2 -> silent (es1 ++ es2)%list.
Proof. unfold silent. intros H1 H2. rewrite quiet_app, H1, H2. reflexivity. Qed.

Lemma silent_requests (es : list Event) : silent es -> requests es = [].
Proof. intros H. rewrite <- requests_quiet, H. reflexivity. Qed.

Lemma silent_notifications (es : list Event) : silent es -> notifications es = [].
Proof. intros H. rewrite <- notifications_quiet, H. reflexivity. Qed.

(** ** Running a computation *)

Lemma run_bind_Return {A B : Type} (m : M A) (k : A -> M B) rs a es1 o es2 :
  m rs = (Return a, es1) ->
  k a (rs ++ requests es1)%list = (o, es2) ->
  bind m k rs = (o, (es1 ++ es2)%list).
Proof. intros H1 H2. unfold bind. rewrite H1, H2. reflexivity. Qed.

Lemma run_bind_silent {A B : Type} (m : M A) (k : A -> M B) rs a es1 o es2 :
  m rs = (Return a, es1) ->
  silent es1 ->
  k a rs = (o, es2) ->
  bind m k rs = (o, (es1 ++ es2)%list).
Proof.
  intros H1 Hs H2. apply run_bind_Return with (a := a); [exact H1|].
  rewrite (silent_requests _ Hs), app_nil_r. exact H2.
Qed.

Lemma run_bind_Raise {A B : Type} (m : M A) (k : A -> M B) rs e es :
  m rs = (Raise e, es) -> bind m k rs = (Raise e, es).
Proof. intros H. unfold bind. rewrite H. reflexivity. Qed.

Lemma run_bind_OutOfFuel {A B : Type} (m : M A) (k : A -> M B) rs es :
  m rs = (OutOfFuel, es) -> bind m k rs = (OutOfFuel, es).
Proof. intros H. unfold bind. rewrite H. reflexivity. Qed.

Lemma run_bind_ret {A B : Type} (a : A) (k : A -> M B) rs :
  bind (ret a) k rs = k a rs.
Proof.
  unfold bind, ret. simpl. rewrite app_nil_r. destruct (k a rs). reflexivity.
Qed.

Lemma run_bind_history {B : Type} (k : list Request -> M B) rs :
  bind history k rs = k rs rs.
Proof.
  unfold bind, history. simpl. rewrite app_nil_r. destruct (k rs rs). reflexivity.
Qed.

Lemma run_bind_emit {B : Type} (ev : Event) (k : unit -> M B) rs o es :
  k tt (rs ++ requests [ev])%list = (o, es) ->
  bind (emit ev) k rs = (o, ev :: es).
Proof. intros H. unfold bind, emit. rewrite H. reflexivity. Qed.

Lemma run_bind_lift_Ok {A B : Type} (r : result A) (a : A) (k : A -> M B) rs :
  r = Ok a -> bind (lift r) k rs = k a rs.
Proof. intros ->. apply run_bind_ret. Qed.

Lemma run_bind_lift_Err {A B : Type} (r : result A) e (k : A -> M B) rs :
  r = Err e -> bind (lift r) k rs = (Raise e, []).
Proof. intros ->. reflexivity. Qed.

Lemma bind_assoc {A B C : Type} (m : M A) (f : A -> M B) (g : B -> M C) rs :
  bind (bind m f) g rs = bind m (fun x => bind (f x) g) rs.
Proof.
  unfold bind. destruct (m rs) as [[a | e | ] es1]; try reflexivity.
  destruct (f a (rs ++ requests es1)%list) as [[b | e | ] es2]; try reflexivity.
  rewrite requests_app, !app_assoc.
  destruct (g b _) as [o es3]. rewrite !app_assoc. reflexivity.
Qed.

(** ** The token presence check *)

Lemma token_check_obj members :
  token_check (JObj members) =
  match dict_get "token" members, dict_get "statusVersion" members with
  | None, _ | Some JNull, _ | Some _, None => Return false
  | Some (JStr _), Some _ => Return true
  | Some _, Some _ => Raise TypeError
  end.
Proof.
  unfold token_check, outcome, __hasToken. cbn.
  destruct (dict_get "token" members) as [tok|] eqn:Etok; [|reflexivity].
  destruct tok; cbn;
    destruct (dict_get "statusVersion" members) as [sv|] eqn:Esv; cbn;
    rewrite ?Etok, ?Esv; reflexivity.
Qed.

Lemma token_check_cases jsonValues :
  token_check jsonValues = Return false
  \/ token_check jsonValues = Raise TypeError
  \/ exists members tok sv,
       token_check jsonValues = Return true
       /\ jsonValues = JObj members
       /\ dict_get "token" members = Some (JStr tok)
       /\ dict_get "statusVersion" members = Some sv.
Proof.
  destruct jsonValues as [ | b | z | r | s | items | members];
    try (right; left; reflexivity).
  - unfold token_check, outcome, __hasToken; cbn.
    destruct (index 0 "token" s); cbn; auto.
  - unfold token_check, outcome, __hasToken; cbn.
    destruct (existsb _ items); cbn; auto.
  - rewrite token_check_obj.
    destruct (dict_get "token" members) as [tok|] eqn:Etok; [|auto].
    destruct (dict_get "statusVersion" members) as [sv|] eqn:Esv;
      destruct tok; auto.
    right; right. exists members, s, sv. auto.
Qed.

Lemma token_check_true_inv jsonValues :
  token_check jsonValues = Return true ->
  exists members tok sv,
    jsonValues = JObj members
    /\ dict_get "token" members = Some (JStr tok)
    /\ dict_get "statusVersion" members = Some sv.
Proof.
  intros H.
  destruct (token_check_cases jsonValues) as [H' | [H' | (m & tok & sv & _ & H')]];
    [congruence | congruence | eauto].
Qed.

Lemma token_check_task statusCode token statusVersion :
  token_check (task statusCode token statusVersion) = Return true.
Proof. reflexivity. Qed.

Create Rewrite HintDb events.
#[global] Hint Rewrite quiet_app quiet_Sent quiet_Notified quiet_Printed quiet_nil
  app_nil_r app_nil_l : events.

(** ** Logging, the check and the callback block as steps of a run *)

Section Steps.

Variable self : Client.

Lemma logprint_run level args rs :
  level = 1 \/ level = 3 \/ level = 4 ->
  __logprint self level args rs = (Return tt, log_lines self level args).
Proof.
  unfold log_lines, emitted, __logprint.
  intros [-> | [-> | ->]]; destruct (_ <=? logLevel self); reflexivity.
Qed.

Lemma log_lines_silent level args : silent (log_lines self level args).
Proof.
  unfold log_lines, emitted, __logprint, silent.
  destruct (level <=? logLevel self); [|reflexivity].
  destruct (assoc Z.eqb level logLevels); reflexivity.
Qed.

Lemma quiet_log_lines level args : quiet (log_lines self level args) = [].
Proof. apply log_lines_silent. Qed.

Lemma log_lines_hidden level args :
  logLevel self < level -> log_lines self level args = [].
Proof.
  intros H. unfold log_lines, emitted, __logprint.
  destruct (Z.leb_spec level (logLevel self)); [lia | reflexivity].
Qed.

(** [__hasToken] reads nothing of the requests made and only logs; its
    verdict is [token_check]. *)
Lemma hasToken_spec jsonValues rs :
  __hasToken self jsonValues rs
  = (token_check jsonValues, hasToken_lines self jsonValues)
  /\ silent (hasToken_lines self jsonValues)
  /\ (logLevel self < 3 -> hasToken_lines self jsonValues = []).
Proof.
  assert (Hcase : forall P : bool -> Prop,
             (logLevel self < 3 -> P false) -> (3 <= logLevel self -> P true) ->
             P (3 <=? logLevel self)).
  { intros P Hf Ht. destruct (Z.leb_spec 3 (logLevel self)); auto. }
  unfold hasToken_lines, emitted, token_check, outcome, silent, __hasToken.
  destruct jsonValues as [ | b | z | r | s | items | members]; cbn;
    try (repeat split; reflexivity).
  - destruct (index 0 "token" s); cbn; [repeat split; reflexivity|].
    unfold bind, __logprint; cbn.
    apply Hcase; intros; cbn; repeat split; try reflexivity; intros; lia.
  - destruct (existsb _ items); cbn; [repeat split; reflexivity|].
    unfold bind, __logprint; cbn.
    apply Hcase; intros; cbn; repeat split; try reflexivity; intros; lia.
  - destruct (dict_get "token" members) as [tok|] eqn:Etok; cbn.
    + destruct tok; cbn;
        destruct (dict_get "statusVersion" members) as [sv|] eqn:Esv; cbn;
        rewrite ?Etok, ?Esv; cbn;
        unfold bind, __logprint; cbn; try rewrite Esv; cbn;
        try (apply Hcase; intros; cbn);
        repeat split; try reflexivity; intros; lia.
    + unfold bind, __logprint; cbn.
      apply Hcase; intros; cbn; repeat split; try reflexivity; intros; lia.
Qed.

Lemma hasToken_run jsonValues rs :
  __hasToken self jsonValues rs
  = (token_check jsonValues, hasToken_lines self jsonValues).
Proof. apply hasToken_spec. Qed.

Lemma hasToken_lines_silent jsonValues : silent (hasToken_lines self jsonValues).
Proof. apply (hasToken_spec jsonValues []). Qed.

Lemma quiet_hasToken_lines jsonValues : quiet (hasToken_lines self jsonValues) = [].
Proof. apply hasToken_lines_silent. Qed.

Lemma hasToken_lines_hidden jsonValues :
  logLevel self < 3 -> hasToken_lines self jsonValues = [].
Proof. apply (hasToken_spec jsonValues []). Qed.

(** The callback block sends nothing and cannot run out of fuel; when the
    callback returns, the block returns and has told it of the response. *)
Lemma callback_run which jsonValues rs :
  run_callbackStatus self which jsonValues rs
  = (outcome (run_callbackStatus self which jsonValues) [],
     callback_events self which jsonValues)
  /\ requests (callback_events self which jsonValues) = []
  /\ outcome (run_callbackStatus self which jsonValues) [] <> OutOfFuel
  /\ (callback_returns self jsonValues ->
      outcome (run_callbackStatus self which jsonValues) [] = Return tt
      /\ quiet (callback_events self which jsonValues) = notified self jsonValues).
Proof.
  unfold callback_events, emitted, outcome, run_callbackStatus, callback_returns,
    notified.
  destruct (callbackStatus self) as [cb|].
  2: { split; [reflexivity|]. split; [reflexivity|]. split; [discriminate|].
       intros _. split; reflexivity. }
  destruct (cb__name__ cb) as [name|].
  2: { split; [reflexivity|]. split; [reflexivity|]. split; [discriminate|].
       intros [Hname _]. congruence. }
  unfold bind, __logprint; cbn.
  destruct (3 <=? logLevel self); cbn;
    destruct (cb_raises cb jsonValues) as [e|]; cbn;
    (split; [reflexivity|]; split; [reflexivity|]; split; [discriminate|]);
    intros [_ Hcall]; try discriminate; split; reflexivity.
Qed.

Lemma run_bind_logprint {B : Type} level args (k : unit -> M B) rs o es :
  level = 1 \/ level = 3 \/ level = 4 ->
  k tt rs = (o, es) ->
  bind (__logprint self level args) k rs
  = (o, (log_lines self level args ++ es)%list).
Proof.
  intros Hl Hk. eapply run_bind_silent; eauto using logprint_run, log_lines_silent.
Qed.

Lemma run_bind_hasToken {B : Type} jsonValues (k : bool -> M B) rs b o es :
  token_check jsonValues = Return b ->
  k b rs = (o, es) ->
  bind (__hasToken self jsonValues) k rs
  = (o, (hasToken_lines self jsonValues ++ es)%list).
Proof.
  intros Hc Hk. eapply run_bind_silent; eauto using hasToken_lines_silent.
  rewrite hasToken_run, Hc. reflexivity.
Qed.

Lemma run_bind_hasToken_Raise {B : Type} jsonValues (k : bool -> M B) rs e :
  token_check jsonValues = Raise e ->
  bind (__hasToken self jsonValues) k rs
  = (Raise e, hasToken_lines self jsonValues).
Proof.
  intros Hc. apply run_bind_Raise. rewrite hasToken_run, Hc. reflexivity.
Qed.

Lemma run_bind_callback {B : Type} which jsonValues (k : unit -> M B) rs o es :
  callback_returns self jsonValues ->
  k tt rs = (o, es) ->
  bind (run_callbackStatus self which jsonValues) k rs
  = (o, (callback_events self which jsonValues ++ es)%list).
Proof.
  intros Hcb Hk.
  destruct (callback_run which jsonValues rs) as (Hrun & Hreq & _ & Hret).
  destruct (Hret Hcb) as [Ho _]. rewrite Ho in Hrun.
  eapply run_bind_Return; [exact Hrun|]. rewrite Hreq, app_nil_r. exact Hk.
Qed.

Lemma quiet_callback_events which jsonValues :
  callback_returns self jsonValues ->
  quiet (callback_events self which jsonValues) = notified self jsonValues.
Proof.
  intros Hcb. apply (callback_run which jsonValues []). exact Hcb.
Qed.

End Steps.

#[global] Hint Rewrite quiet_log_lines quiet_hasToken_lines : events.
#[global] Hint Rewrite quiet_callback_events using assumption : events.

(** One step of a run whose next action is known. *)
Ltac run_step :=
  cbv beta iota;
  match goal with
  | |- bind (bind _ _) _ _ = _ => rewrite bind_assoc
  | |- bind (__logprint _ _ _) _ _ = _ => apply run_bind_logprint; [tauto|]
  | |- bind history _ _ = _ => rewrite run_bind_history
  | |- bind (emit _) _ _ = _ => apply run_bind_emit; cbn [requests flat_map app]
  | |- bind (ret _) _ _ = _ => rewrite run_bind_ret
  | |- bind (raise _) _ _ = _ => apply run_bind_Raise; reflexivity
  | |- bind out_of_fuel _ _ = _ => apply run_bind_OutOfFuel; reflexivity
  | H : token_check ?j = Return _ |- bind (__hasToken _ ?j) _ _ = _ =>
      eapply run_bind_hasToken; [exact H|]
  | H : token_check ?j = Raise _ |- bind (__hasToken _ ?j) _ _ = _ =>
      eapply run_bind_hasToken_Raise; exact H
  | H : ?r = Ok _ |- bind (lift ?r) _ _ = _ =>
      rewrite (run_bind_lift_Ok _ _ _ _ H)
  | |- bind (lift ?r) _ _ = _ =>
      let r' := eval hnf in r in
      lazymatch r' with
      | Ok ?a => rewrite (run_bind_lift_Ok r a _ _ eq_refl)
      | Err ?e => rewrite (run_bind_lift_Err r e _ _ eq_refl)
      end
  | H : callback_returns ?self ?j |- bind (run_callbackStatus ?self _ ?j) _ _ = _ =>
      apply run_bind_callback; [exact H|]
  | |- ret _ _ = _ => reflexivity
  | |- raise _ _ = _ => reflexivity
  | |- out_of_fuel _ = _ => reflexivity
  | |- (_, _) = (_, _) => reflexivity
  end.

Ltac quiet_events := autorewrite with events; try reflexivity.

(** ** [__callMethod] *)

Lemma bind_ext {A B : Type} (m : M A) (k1 k2 : A -> M B) rs :
  (forall a rs', k1 a rs' = k2 a rs') -> bind m k1 rs = bind m k2 rs.
Proof.
  intros H. unfold bind. destruct (m rs) as [[a | e | ] es]; try reflexivity.
  rewrite H. reflexivity.
Qed.

Lemma emitted_bind_logprint {B : Type} self level args (k : unit -> M B) rs :
  level = 1 \/ level = 3 \/ level = 4 ->
  emitted (bind (__logprint self level args) k) rs
  = (log_lines self level args ++ emitted (k tt) rs)%list.
Proof.
  intros Hl. unfold emitted. destruct (k tt rs) as [o es] eqn:Hk.
  rewrite (run_bind_logprint self level args k rs o es Hl Hk). reflexivity.
Qed.

Lemma emitted_bind_history {B : Type} (k : list Request -> M B) rs :
  emitted (bind history k) rs = emitted (k rs) rs.
Proof. unfold emitted. rewrite run_bind_history. reflexivity. Qed.

Lemma emitted_bind_emit {B : Type} ev (k : unit -> M B) rs :
  emitted (bind (emit ev) k) rs = ev :: emitted (k tt) (rs ++ requests [ev])%list.
Proof.
  unfold emitted. destruct (k tt _) as [o es] eqn:Hk.
  rewrite (run_bind_emit ev k rs o es Hk). reflexivity.
Qed.

Section CallMethod.

Variable self : Client.
Variable urlopen : Transport.

(** The response is returned as it came when the check fails or automatic
    handling is off; one request has been made. *)
Lemma callMethod_unhandled fuel method arguments mode aht rs decoded :
  urlopen rs (request_of self method arguments mode) = Body decoded ->
  token_check decoded = Return false
  \/ token_check decoded = Return true
     /\ match aht with Some b => b | None => autoHandleToken self end = false ->
  exists es,
    __callMethod self urlopen fuel method arguments mode aht rs = (Return decoded, es)
    /\ quiet es = [Sent (request_of self method arguments mode)].
Proof.
  unfold request_of. intros Hreply Hcheck.
  destruct fuel; cbn [__callMethod];
    destruct Hcheck as [Hc | [Hc Haht]]; try rewrite Haht;
    (eexists; split;
     [ do 4 run_step; rewrite Hreply; repeat run_step | quiet_events ]).
Qed.

(** With a token and automatic handling on, the outcome is that of
    [__handleToken] on the response. *)
Lemma callMethod_handled fuel method arguments mode aht rs decoded o es' :
  urlopen rs (request_of self method arguments mode) = Body decoded ->
  token_check decoded = Return true ->
  match aht with Some b => b | None => autoHandleToken self end = true ->
  __handleToken self urlopen fuel decoded None
    (rs ++ [request_of self method arguments mode])%list = (o, es') ->
  exists es,
    __callMethod self urlopen (S fuel) method arguments mode aht rs = (o, es)
    /\ quiet es = Sent (request_of self method arguments mode) :: quiet es'.
Proof.
  unfold request_of. intros Hreply Hc Haht Hh.
  cbn [__callMethod]. rewrite Haht.
  destruct o as [r | e | ].
  - eexists; split.
    + do 4 run_step. rewrite Hreply. repeat run_step.
      eapply run_bind_Return; [exact Hh|]. repeat run_step.
    + quiet_events.
  - eexists; split.
    + do 4 run_step. rewrite Hreply. repeat run_step.
      eapply run_bind_Raise. exact Hh.
    + quiet_events.
  - eexists; split.
    + do 4 run_step. rewrite Hreply. repeat run_step.
      eapply run_bind_OutOfFuel. exact Hh.
    + quiet_events.
Qed.

(** A response on which the check itself raises. *)
Lemma callMethod_check_raises fuel method arguments mode aht rs decoded e :
  urlopen rs (request_of self method arguments mode) = Body decoded ->
  token_check decoded = Raise e ->
  exists es,
    __callMethod self urlopen fuel method arguments mode aht rs = (Raise e, es)
    /\ quiet es = [Sent (request_of self method arguments mode)].
Proof.
  unfold request_of. intros Hreply Hc.
  destruct fuel; cbn [__callMethod];
    (eexists; split;
     [ do 4 run_step; rewrite Hreply; repeat run_step | quiet_events ]).
Qed.

(** The exception a reply other than a decodable body ends the call with. *)
Lemma callMethod_no_body fuel method arguments mode aht rs :
  match urlopen rs (request_of self method arguments mode) with
  | Body _ => True
  | BadBody e =>
      exists es,
        __callMethod self urlopen fuel method arguments mode aht rs = (Raise e, es)
        /\ quiet es = [Sent (request_of self method arguments mode)]
  | RaisesHTTPError code msg _ =>
      exists es,
        __callMethod self urlopen fuel method arguments mode aht rs
        = (Raise (HTTPError code msg), es)
        /\ quiet es = [Sent (request_of self method arguments mode)]
  | RaisesOther e =>
      exists es,
        __callMethod self urlopen fuel method arguments mode aht rs
        = (Raise (MailStoreBaseError e), es)
        /\ quiet es = [Sent (request_of self method arguments mode)]
  end.
Proof.
  unfold request_of.
  destruct (urlopen rs _) as [j | e | code msg fpm | e] eqn:Hreply; [exact I | | | ].
  all: destruct fuel; cbn [__callMethod];
    (eexists; split;
     [ do 4 run_step; rewrite Hreply; repeat run_step | quiet_events ]).
Qed.

(** Whatever follows, the first thing a call does to the outside world is to
    send its request. *)
Lemma callMethod_sends fuel method arguments mode aht rs :
  exists rest,
    quiet (emitted (__callMethod self urlopen fuel method arguments mode aht) rs)
    = Sent (request_of self method arguments mode) :: rest.
Proof.
  unfold request_of.
  destruct fuel; cbn [__callMethod];
    rewrite !emitted_bind_logprint by tauto;
    rewrite emitted_bind_history, emitted_bind_emit;
    eexists; quiet_events.
Qed.

(** With automatic handling switched off for the call, no fuel is used. *)
Lemma callMethod_no_auto_fuel fuel method arguments mode :
  __callMethod self urlopen fuel method arguments mode (Some false)
  = __callMethod self urlopen 0 method arguments mode (Some false).
Proof. destruct fuel; reflexivity. Qed.

End CallMethod.

(** ** [GetStatus], [CancelAsync] and the poll loop *)

Lemma token_check_trackable jsonValues tok sv :
  py_getitem jsonValues "token" = Ok (JStr tok) ->
  py_getitem jsonValues "statusVersion" = Ok sv ->
  token_check jsonValues = Return true.
Proof.
  destruct jsonValues as [ | b | z | r | s | items | members]; try discriminate.
  unfold py_getitem. intros Ht Hs. rewrite token_check_obj.
  destruct (dict_get "token" members) as [t|]; [|discriminate].
  destruct (dict_get "statusVersion" members) as [v|]; [|discriminate].
  injection Ht as ->. reflexivity.
Qed.

Section Polling.

Variable self : Client.
Variable urlopen : Transport.

Lemma GetStatus_no_token fuel jsonValues wt rs :
  token_check jsonValues = Return false ->
  exists es,
    GetStatus self urlopen fuel jsonValues wt rs
    = (Raise (MailStoreNoTokenError jsonValues), es)
    /\ silent es.
Proof.
  intros Hc. unfold silent.
  destruct fuel; cbn [GetStatus];
    (eexists; split; [repeat run_step | quiet_events]).
Qed.

Lemma CancelAsync_no_token fuel jsonValues rs :
  token_check jsonValues = Return false ->
  exists es,
    CancelAsync self urlopen fuel jsonValues rs
    = (Raise (MailStoreNoTokenError jsonValues), es)
    /\ silent es.
Proof.
  intros Hc. unfold silent, CancelAsync.
  eexists; split; [repeat run_step | quiet_events].
Qed.

Lemma GetStatus_check_raises fuel jsonValues wt rs e :
  token_check jsonValues = Raise e ->
  exists es,
    GetStatus self urlopen fuel jsonValues wt rs = (Raise e, es) /\ silent es.
Proof.
  intros Hc. unfold silent.
  destruct fuel; cbn [GetStatus];
    (eexists; split; [repeat run_step | quiet_events]).
Qed.

(** On a trackable response [GetStatus] is one call of [__callMethod], with
    automatic handling off. *)
Lemma GetStatus_calls fuel jsonValues tok sv wt rs o es' :
  py_getitem jsonValues "token" = Ok (JStr tok) ->
  py_getitem jsonValues "statusVersion" = Ok sv ->
  __callMethod self urlopen fuel "get-status"
    [("token", JStr tok);
     ("millisecondsTimeout", JInt (GetStatus_waitTime self wt));
     ("lastKnownStatusVersion", JStr (py_str sv))]
    EmptyString (Some false) rs = (o, es') ->
  GetStatus self urlopen (S fuel) jsonValues wt rs
  = (o, (hasToken_lines self jsonValues ++ es')%list).
Proof.
  intros Ht Hs Hcall.
  pose proof (token_check_trackable _ _ _ Ht Hs) as Hc.
  cbn [GetStatus]. repeat run_step. exact Hcall.
Qed.

Lemma GetStatus_returns fuel jsonValues tok sv wt rs decoded b :
  py_getitem jsonValues "token" = Ok (JStr tok) ->
  py_getitem jsonValues "statusVersion" = Ok sv ->
  urlopen rs (status_request self (JStr tok) (GetStatus_waitTime self wt) sv)
  = Body decoded ->
  token_check decoded = Return b ->
  exists es,
    GetStatus self urlopen (S fuel) jsonValues wt rs = (Return decoded, es)
    /\ quiet es
       = [Sent (status_request self (JStr tok) (GetStatus_waitTime self wt) sv)].
Proof.
  intros Ht Hs Hreply Hc.
  destruct (callMethod_unhandled self urlopen fuel "get-status"
              [("token", JStr tok);
               ("millisecondsTimeout", JInt (GetStatus_waitTime self wt));
               ("lastKnownStatusVersion", JStr (py_str sv))]
              EmptyString (Some false) rs decoded Hreply) as (es' & Hrun & Hq).
  { destruct b; auto. }
  eexists; split; [eapply GetStatus_calls; eassumption|].
  quiet_events. exact Hq.
Qed.

(** [GetStatus] needs one unit of fuel and no more. *)
Lemma GetStatus_fuel fuel jsonValues wt rs :
  GetStatus self urlopen (S fuel) jsonValues wt rs
  = GetStatus self urlopen 1 jsonValues wt rs.
Proof.
  cbn [GetStatus]. apply bind_ext. intros [|] rs1; [|reflexivity].
  apply bind_ext; intros sv rs2. apply bind_ext; intros token rs3.
  exact (f_equal (fun m : M json => m rs3)
           (callMethod_no_auto_fuel self urlopen fuel _ _ _)).
Qed.

Lemma while_running_exit fuel jsonValues wt rs statusCode :
  py_getitem jsonValues "statusCode" = Ok statusCode ->
  py_eq_str statusCode "running" = false ->
  while_running self urlopen fuel jsonValues wt rs = (Return jsonValues, []).
Proof.
  intros Hs Hne. destruct fuel; cbn [while_running]; run_step; rewrite Hne; reflexivity.
Qed.

(** One turn of the loop whose refresh and callback return. *)
Lemma while_running_turn fuel jsonValues wt rs statusCode tok refreshed es1 o es2 :
  py_getitem jsonValues "statusCode" = Ok statusCode ->
  py_eq_str statusCode "running" = true ->
  py_getitem jsonValues "token" = Ok (JStr tok) ->
  GetStatus self urlopen fuel jsonValues (Some wt) rs = (Return refreshed, es1) ->
  callback_returns self refreshed ->
  while_running self urlopen fuel refreshed wt (rs ++ requests es1)%list = (o, es2) ->
  exists es,
    while_running self urlopen (S fuel) jsonValues wt rs = (o, es)
    /\ quiet es = (quiet es1 ++ notified self refreshed ++ quiet es2)%list.
Proof.
  intros Hs Hrun Ht Hget Hcb Hrest.
  cbn [while_running]. eexists; split.
  - run_step. rewrite Hrun. repeat run_step.
    eapply run_bind_Return; [exact Hget|]. repeat run_step. exact Hrest.
  - quiet_events.
Qed.

(** A turn whose refresh raises ends the loop there. *)
Lemma while_running_refresh_raises fuel jsonValues wt rs statusCode tok e es1 :
  py_getitem jsonValues "statusCode" = Ok statusCode ->
  py_eq_str statusCode "running" = true ->
  py_getitem jsonValues "token" = Ok (JStr tok) ->
  GetStatus self urlopen fuel jsonValues (Some wt) rs = (Raise e, es1) ->
  exists es,
    while_running self urlopen (S fuel) jsonValues wt rs = (Raise e, es)
    /\ quiet es = quiet es1.
Proof.
  intros Hs Hrun Ht Hget.
  cbn [while_running]. eexists; split.
  - run_step. rewrite Hrun. repeat run_step.
    eapply run_bind_Raise. exact Hget.
  - quiet_events.
Qed.

Lemma handleToken_returns fuel jsonValues wt rs final es1 tok :
  callback_returns self jsonValues ->
  while_running self urlopen fuel jsonValues (handleToken_waitTime self wt) rs
  = (Return final, es1) ->
  py_getitem final "token" = Ok (JStr tok) ->
  exists es,
    __handleToken self urlopen (S fuel) jsonValues wt rs = (Return final, es)
    /\ quiet es = (notified self jsonValues ++ quiet es1)%list.
Proof.
  intros Hcb Hloop Ht. cbn [__handleToken]. eexists; split.
  - repeat run_step. eapply run_bind_Return; [exact Hloop|]. repeat run_step.
  - quiet_events.
Qed.

Lemma handleToken_loop_raises fuel jsonValues wt rs e es1 :
  callback_returns self jsonValues ->
  while_running self urlopen fuel jsonValues (handleToken_waitTime self wt) rs
  = (Raise e, es1) ->
  exists es,
    __handleToken self urlopen (S fuel) jsonValues wt rs = (Raise e, es)
    /\ quiet es = (notified self jsonValues ++ quiet es1)%list.
Proof.
  intros Hcb Hloop. cbn [__handleToken]. eexists; split.
  - repeat run_step. eapply run_bind_Raise. exact Hloop.
  - quiet_events.
Qed.

End Polling.

(** ** The scenario of the spec *)

Lemma hasToken_outcome self jsonValues rs :
  outcome (__hasToken self jsonValues) rs = token_check jsonValues.
Proof. unfold outcome. rewrite hasToken_run. reflexivity. Qed.

Lemma GetStatus_waitTime_default self :
  GetStatus_waitTime self (Some (waitTime self)) = waitTime self.
Proof. unfold GetStatus_waitTime. destruct (truthy _); reflexivity. Qed.

Lemma callback_returns_intro self cb jsonValues :
  callbackStatus self = Some cb ->
  cb__name__ cb <> None ->
  (forall j, cb_raises cb j = None) ->
  callback_returns self jsonValues.
Proof. unfold callback_returns. intros -> Hn Hr. auto. Qed.

Lemma quiet_requests es qs : quiet es = qs -> requests es = requests qs.
Proof. intros <-. symmetry. apply requests_quiet. Qed.

(** C1.  Started on the initial response of the scenario, with a callback that
    returns, and with the two refreshes answered by the second "running"
    response and by the "completed" one, [__handleToken] returns the completed
    response; apart from log lines, what it does is: callback on version 1,
    request, callback on version 2, request, callback on version 3.  So the
    callback runs three times, two requests are made, none after the
    completed response, and the result carries id 42.  This holds for every
    log level and every amount of fuel from 4 on. *)
Theorem C1_handleToken_scenario
    (self : Client) (urlopen : Transport) (cb : Callback) (rs : list Request)
    (fuel : nat) :
  callbackStatus self = Some cb ->
  cb__name__ cb <> None ->
  (forall j, cb_raises cb j = None) ->
  let q1 := status_request self (JStr "T1") (waitTime self) (JInt 1) in
  let q2 := status_request self (JStr "T1") (waitTime self) (JInt 2) in
  urlopen rs q1 = Body scenario_refresh1 ->
  urlopen (rs ++ [q1])%list q2 = Body scenario_refresh2 ->
  exists es,
    __handleToken self urlopen (4 + fuel) scenario_initial None rs
    = (Return scenario_refresh2, es)
    /\ quiet es = [Notified scenario_initial; Sent q1;
                   Notified scenario_refresh1; Sent q2;
                   Notified scenario_refresh2]
    /\ notifications es
       = [scenario_initial; scenario_refresh1; scenario_refresh2]
    /\ requests es = [q1; q2]
    /\ match py_getitem scenario_refresh2 "result" with
       | Ok result => py_getitem result "id" = Ok (JInt 42)
       | Err _ => False
       end.
Proof.
  intros Hcb Hname Hret q1 q2 Hreply1 Hreply2.
  assert (Hreturns : forall j, callback_returns self j)
    by (intros j; eapply callback_returns_intro; eauto).
  assert (Hnote : forall j, notified self j = [Notified j])
    by (intros j; unfold notified; rewrite Hcb; reflexivity).
  (* second refresh, after which the loop is left *)
  destruct (GetStatus_returns self urlopen fuel scenario_refresh1 "T1" (JInt 2)
              (Some (waitTime self)) (rs ++ [q1])%list scenario_refresh2 true)
    as (es2 & Hget2 & Hq2);
    [ reflexivity | reflexivity
    | rewrite GetStatus_waitTime_default; exact Hreply2 | reflexivity | ].
  rewrite GetStatus_waitTime_default in Hq2. fold q2 in Hq2.
  destruct (while_running_turn self urlopen (S fuel) scenario_refresh1
              (waitTime self) (rs ++ [q1])%list (JStr "running") "T1"
              scenario_refresh2 es2 (Return scenario_refresh2) [])
    as (es2' & Hloop2 & Hq2');
    [ reflexivity | reflexivity | reflexivity | exact Hget2 | apply Hreturns
    | eapply while_running_exit; reflexivity | ].
  (* first refresh *)
  destruct (GetStatus_returns self urlopen (S fuel) scenario_initial "T1" (JInt 1)
              (Some (waitTime self)) rs scenario_refresh1 true)
    as (es1 & Hget1 & Hq1);
    [ reflexivity | reflexivity
    | rewrite GetStatus_waitTime_default; exact Hreply1 | reflexivity | ].
  rewrite GetStatus_waitTime_default in Hq1. fold q1 in Hq1.
  destruct (while_running_turn self urlopen (S (S fuel)) scenario_initial
              (waitTime self) rs (JStr "running") "T1"
              scenario_refresh1 es1 (Return scenario_refresh2) es2')
    as (es1' & Hloop1 & Hq1');
    [ reflexivity | reflexivity | reflexivity | exact Hget1 | apply Hreturns
    | rewrite (quiet_requests _ _ Hq1); exact Hloop2 | ].
  destruct (handleToken_returns self urlopen (S (S (S fuel))) scenario_initial None rs
              scenario_refresh2 es1' "T1")
    as (es & Hrun & Hq); [ apply Hreturns | exact Hloop1 | reflexivity | ].
  assert (Hquiet : quiet es = [Notified scenario_initial; Sent q1;
                               Notified scenario_refresh1; Sent q2;
                               Notified scenario_refresh2]).
  { rewrite Hq, Hq1', Hq1, Hq2', Hq2, !Hnote. reflexivity. }
  exists es. split; [exact Hrun|]. split; [exact Hquiet|].
  split; [rewrite <- notifications_quiet, Hquiet; reflexivity|].
  split; [rewrite (quiet_requests _ _ Hquiet); reflexivity|].
  reflexivity.
Qed.

(** The scenario itself: the default settings, a callback that records, and
    a remote side that answers the two refreshes in turn. *)
Lemma C1_handleToken_scenario_witness :
  exists es,
    __handleToken recording_Client
      (scripted [Body scenario_refresh1; Body scenario_refresh2]) 4
      scenario_initial None []
    = (Return scenario_refresh2, es)
    /\ notifications es
       = [scenario_initial; scenario_refresh1; scenario_refresh2].
Proof.
  destruct (C1_handleToken_scenario recording_Client
              (scripted [Body scenario_refresh1; Body scenario_refresh2])
              recorder [] 0)
    as (es & Hrun & _ & Hn & _);
    [ reflexivity | discriminate | reflexivity | reflexivity | reflexivity | ].
  exists es. split; [exact Hrun | exact Hn].
Defined.

(** ** The check and the missing token *)

(** The one line [__hasToken] prints when it returns, if the log level lets
    it; nothing is printed when it raises. *)
Lemma hasToken_lines_obj self members :
  let info text :=
    if 3 <=? logLevel self then [Printed "INFO" [JStr text]] else [] in
  hasToken_lines self (JObj members)
  = match dict_get "token" members, dict_get "statusVersion" members with
    | Some (JStr s), Some sv =>
        info ("__hasToken: Status token " ++ s ++ " detected. statusVersion is "
              ++ py_str sv)
    | None, _ | Some JNull, _ | Some _, None =>
        info "__hasToken: No status token detected"
    | Some _, Some _ => []
    end.
Proof.
  intros info. subst info.
  unfold hasToken_lines, emitted, __hasToken. cbn.
  destruct (dict_get "token" members) as [tok|] eqn:Etok; cbn.
  - destruct tok; cbn;
      destruct (dict_get "statusVersion" members) as [sv|] eqn:Esv; cbn;
      rewrite ?Etok, ?Esv; cbn;
      unfold bind, __logprint; cbn; try rewrite Esv; cbn;
      destruct (3 <=? logLevel self); reflexivity.
  - unfold bind, __logprint; cbn. destruct (3 <=? logLevel self); reflexivity.
Qed.

(** C3, as the code has it.  On a decoded object, [__hasToken] returns [False]
    when [token] is missing or null or [statusVersion] is missing, and [True]
    when [token] is a string and [statusVersion] is present (null included).
    When [token] is present, not null and not a string, and [statusVersion] is
    present, it raises [TypeError]: the log message is put together from the
    token before the log level is looked at.  These are its outcomes.  When it
    returns it has one effect besides: at log level 3 or more it prints one
    INFO line, naming the token and the status version when the verdict is
    [True]; below that level it prints nothing, and nothing when it raises. *)
Theorem C3_hasToken_verdict
    (self : Client) (members : list (string * json)) (rs : list Request) :
  let verdict := outcome (__hasToken self (JObj members)) rs in
  let lines := emitted (__hasToken self (JObj members)) rs in
  let info text :=
    if 3 <=? logLevel self then [Printed "INFO" [JStr text]] else [] in
  (dict_get "token" members = None -> verdict = Return false)
  /\ (dict_get "token" members = Some JNull -> verdict = Return false)
  /\ (dict_get "statusVersion" members = None -> verdict = Return false)
  /\ (forall s sv,
        dict_get "token" members = Some (JStr s) ->
        dict_get "statusVersion" members = Some sv ->
        verdict = Return true
        /\ lines
           = info ("__hasToken: Status token " ++ s
                   ++ " detected. statusVersion is " ++ py_str sv))
  /\ (forall tok sv,
        dict_get "token" members = Some tok ->
        tok <> JNull -> (forall s, tok <> JStr s) ->
        dict_get "statusVersion" members = Some sv ->
        verdict = Raise TypeError /\ lines = [])
  /\ (verdict = Return false ->
      lines = info "__hasToken: No status token detected")
  /\ (forall e, verdict = Raise e -> lines = [])
  /\ (verdict = Return false \/ verdict = Return true \/ verdict = Raise TypeError)
  /\ silent lines
  /\ (logLevel self < 3 -> lines = []).
Proof.
  intros verdict lines info. subst verdict lines info.
  rewrite hasToken_outcome, token_check_obj.
  unfold emitted. rewrite hasToken_run. cbn [snd].
  rewrite hasToken_lines_obj.
  split; [|split; [|split; [|split; [|split; [|split; [|split; [|split; [|split]]]]]]]].
  - intros ->. reflexivity.
  - intros ->. reflexivity.
  - intros ->. destruct (dict_get "token" members) as [[]|]; reflexivity.
  - intros s sv -> ->. split; reflexivity.
  - intros tok sv -> Hnull Hstr ->.
    destruct tok; try (split; reflexivity);
      [congruence | exfalso; eapply Hstr; reflexivity].
  - destruct (dict_get "token" members) as [tok|]; [|reflexivity].
    destruct tok; destruct (dict_get "statusVersion" members);
      try reflexivity; discriminate.
  - intros e.
    destruct (dict_get "token" members) as [tok|]; [|discriminate].
    destruct tok; destruct (dict_get "statusVersion" members);
      try reflexivity; discriminate.
  - destruct (dict_get "token" members) as [tok|]; [|auto].
    destruct tok; destruct (dict_get "statusVersion" members); auto.
  - rewrite <- hasToken_lines_obj. apply hasToken_lines_silent.
  - rewrite <- hasToken_lines_obj. apply hasToken_lines_hidden.
Qed.

(** C3 as stated fails: with a token that is a number, [token] and
    [statusVersion] both present and not null, [__hasToken] raises
    [TypeError] and returns nothing. *)
Lemma C3_counterexample :
  outcome (__hasToken server_Client
             (JObj [("token", JInt 5); ("statusVersion", JInt 1)])) []
  = Raise TypeError.
Proof. reflexivity. Qed.

(** C4.  On a response that fails the token presence check, [GetStatus] and
    [CancelAsync] raise [MailStoreNoTokenError] carrying the response; no
    request is sent and no callback runs: all they do besides is log. *)
Theorem C4_no_token_error
    (self : Client) (urlopen : Transport) (fuel : nat) (jsonValues : json)
    (waitTime' : option Z) (rs : list Request) :
  outcome (__hasToken self jsonValues) rs = Return false ->
  (exists es,
     GetStatus self urlopen fuel jsonValues waitTime' rs
     = (Raise (MailStoreNoTokenError jsonValues), es)
     /\ requests es = [] /\ quiet es = [])
  /\ (exists es,
        CancelAsync self urlopen fuel jsonValues rs
        = (Raise (MailStoreNoTokenError jsonValues), es)
        /\ requests es = [] /\ quiet es = []).
Proof.
  rewrite hasToken_outcome. intros Hc. split.
  - destruct (GetStatus_no_token self urlopen fuel jsonValues waitTime' rs Hc)
      as (es & Hrun & Hs).
    exists es. auto using silent_requests.
  - destruct (CancelAsync_no_token self urlopen fuel jsonValues rs Hc)
      as (es & Hrun & Hs).
    exists es. auto using silent_requests.
Qed.

(** A synchronous result has no token to poll or cancel. *)
Lemma C4_no_token_error_witness :
  (exists es,
     GetStatus server_Client (scripted []) 0 (JObj [("result", JInt 7)]) None []
     = (Raise (MailStoreNoTokenError (JObj [("result", JInt 7)])), es)
     /\ requests es = [] /\ quiet es = [])
  /\ (exists es,
        CancelAsync server_Client (scripted []) 0 (JObj [("result", JInt 7)]) []
        = (Raise (MailStoreNoTokenError (JObj [("result", JInt 7)])), es)
        /\ requests es = [] /\ quiet es = []).
Proof.
  apply (C4_no_token_error server_Client (scripted []) 0
           (JObj [("result", JInt 7)]) None []).
  reflexivity.
Defined.

(** ** A refresh that raises *)

(** The turns of the loop that went well change nothing of how it ends. *)
Lemma while_running_polled self urlopen wt jv rs jv' rs' n :
  polled self urlopen wt jv rs jv' rs' n ->
  forall fuel o es',
    while_running self urlopen (S (S fuel)) jv' wt rs' = (o, es') ->
    exists es es0,
      while_running self urlopen (n + S (S fuel)) jv wt rs = (o, es)
      /\ quiet es = (es0 ++ quiet es')%list.
Proof.
  induction 1 as [jv rs | jv rs statusCode tok refreshed es1 jv' rs' n
                           Hs Hrun Ht Hget Hcb Hpolled IH];
    intros fuel o es' Hend.
  - exists es', []. split; [exact Hend | reflexivity].
  - destruct (IH fuel o es' Hend) as (es2 & es0 & Hrest & Hq).
    destruct (while_running_turn self urlopen (n + S (S fuel)) jv wt rs
                statusCode tok refreshed es1 o es2)
      as (es & Hloop & Hq'); auto.
    { replace (n + S (S fuel))%nat with (S (n + S fuel))%nat by lia.
      rewrite GetStatus_fuel. exact Hget. }
    exists es, (quiet es1 ++ notified self refreshed ++ es0)%list.
    split; [exact Hloop|]. rewrite Hq', Hq, !app_assoc. reflexivity.
Qed.

(** C5.  A status refresh that raises, in whichever turn of the loop, ends
    the top-level call with that very exception.  The call got a trackable
    response, automatic handling is on, [n] turns of the loop went well, and in
    the next turn [GetStatus] raises [e] (a transport failure, a body that
    does not decode, a missing token, ...): then [__callMethod] raises [e],
    returning no response, and the last thing it did to the outside world is
    what the failed refresh did. *)
Theorem C5_refresh_error_propagates
    (self : Client) (urlopen : Transport) (method : string)
    (arguments : list (string * json)) (mode : string) (aht : option bool)
    (rs : list Request) (decoded : json) (n : nat) (jv : json)
    (rs' : list Request) (statusCode : json) (tok : string) (e : exn)
    (es1 : list Event) (fuel : nat) :
  let request := request_of self method arguments mode in
  urlopen rs request = Body decoded ->
  outcome (__hasToken self decoded) (rs ++ [request])%list = Return true ->
  match aht with Some b => b | None => autoHandleToken self end = true ->
  callback_returns self decoded ->
  polled self urlopen (waitTime self) decoded (rs ++ [request])%list jv rs' n ->
  py_getitem jv "statusCode" = Ok statusCode ->
  py_eq_str statusCode "running" = true ->
  py_getitem jv "token" = Ok (JStr tok) ->
  GetStatus self urlopen 1 jv (Some (waitTime self)) rs' = (Raise e, es1) ->
  exists es es0,
    __callMethod self urlopen (n + 4 + fuel) method arguments mode aht rs
    = (Raise e, es)
    /\ quiet es = (es0 ++ quiet es1)%list.
Proof.
  intros request Hreply Hcheck Hauto Hcb Hpolled Hs Hrun Ht Hget.
  rewrite hasToken_outcome in Hcheck.
  destruct (while_running_refresh_raises self urlopen (S fuel) jv (waitTime self)
              rs' statusCode tok e es1 Hs Hrun Ht) as (es2 & Hturn & Hq2).
  { rewrite GetStatus_fuel. exact Hget. }
  destruct (while_running_polled _ _ _ _ _ _ _ _ Hpolled fuel _ _ Hturn)
    as (es3 & es0 & Hloop & Hq3).
  destruct (handleToken_loop_raises self urlopen (n + S (S fuel)) decoded None
              (rs ++ [request])%list e es3 Hcb Hloop) as (es4 & Hh & Hq4).
  destruct (callMethod_handled self urlopen (S (n + S (S fuel))) method arguments
              mode aht rs decoded (Raise e) es4 Hreply Hcheck Hauto Hh)
    as (es & Hcall & Hq).
  replace (n + 4 + fuel)%nat with (S (S (n + S (S fuel))))%nat by lia.
  exists es, (Sent request :: notified self decoded ++ es0)%list.
  split; [exact Hcall|].
  rewrite Hq, Hq4, Hq3, Hq2. cbn [app]. rewrite app_assoc. reflexivity.
Qed.

(** The connection is lost at the second refresh. *)
Lemma C5_refresh_error_propagates_witness :
  exists es es0,
    __callMethod recording_Client
      (scripted [Body scenario_initial; Body scenario_refresh1;
                 RaisesOther (Foreign "URLError")])
      5 "VerifyStore" [("id", JInt 1)] "invoke" None []
    = (Raise (MailStoreBaseError (Foreign "URLError")), es)
    /\ quiet es
       = (es0 ++ [Sent (status_request recording_Client (JStr "T1") 1000 (JInt 2))])%list.
Proof.
  apply (C5_refresh_error_propagates recording_Client
           (scripted [Body scenario_initial; Body scenario_refresh1;
                      RaisesOther (Foreign "URLError")])
           "VerifyStore" [("id", JInt 1)] "invoke" None []
           scenario_initial 1 scenario_refresh1
           [mkRequest "https://127.0.0.1:8463/api/invoke/VerifyStore" "id=1";
            status_request recording_Client (JStr "T1") 1000 (JInt 1)]
           (JStr "running") "T1" (MailStoreBaseError (Foreign "URLError"))
           [Sent (status_request recording_Client (JStr "T1") 1000 (JInt 2));
            Printed "ERROR" [JStr "Unhandled Exception"]] 0).
  - reflexivity.
  - reflexivity.
  - reflexivity.
  - simpl. split; [discriminate | reflexivity].
  - eapply polled_S with (statusCode := JStr "running") (tok := "T1")
                         (refreshed := scenario_refresh1)
                         (es := [Sent (status_request recording_Client
                                         (JStr "T1") 1000 (JInt 1))]).
    + reflexivity.
    + reflexivity.
    + reflexivity.
    + reflexivity.
    + simpl. split; [discriminate | reflexivity].
    + apply polled_O.
  - reflexivity.
  - reflexivity.
  - reflexivity.
  - reflexivity.
Defined.

(** ** Argument marshalling and the status request *)

Lemma dict_get_head {V : Type} k (v : V) d : dict_get k ((k, v) :: d) = Some v.
Proof. unfold dict_get. simpl. rewrite String.eqb_refl. reflexivity. Qed.

Lemma dict_get_tail {V : Type} k k' (v : V) d :
  k' <> k -> dict_get k' ((k, v) :: d) = dict_get k' d.
Proof.
  intros Hne. unfold dict_get. simpl.
  destruct (String.eqb_spec k' k); [contradiction | reflexivity].
Qed.

(** On a [dict], whose keys are distinct, the list comprehension keeps the
    items with a true value, in order. *)
Lemma marshal_filter arguments :
  NoDup (keys arguments) ->
  marshal arguments = filter (fun kv => truthy (snd kv)) arguments.
Proof.
  unfold marshal.
  induction arguments as [|[k v] rest IH]; intros Hnd; [reflexivity|].
  inversion Hnd as [|k0 ks Hnotin Hnd']; subst.
  cbn [keys map fst flat_map filter snd].
  rewrite dict_get_head.
  assert (Hrest :
            flat_map (fun key =>
                        match dict_get key ((k, v) :: rest) with
                        | Some v0 => if truthy v0 then [(key, v0)] else []
                        | None => []
                        end) (map fst rest)
            = filter (fun kv => truthy (snd kv)) rest).
  { rewrite <- (IH Hnd'). rewrite !flat_map_concat_map. f_equal.
    apply map_ext_in. intros key Hin. rewrite dict_get_tail; [reflexivity|].
    intros ->. exact (Hnotin Hin). }
  rewrite Hrest. destruct (truthy v); reflexivity.
Qed.

Lemma marshal_truthy arguments k v :
  In (k, v) (marshal arguments) -> truthy v = true.
Proof.
  unfold marshal. rewrite in_flat_map. intros (key & _ & Hin).
  destruct (dict_get key arguments) as [v0|]; [|contradiction].
  destruct (truthy v0) eqn:Htruthy; [|contradiction].
  destruct Hin as [Heq | []]. injection Heq as <- <-. exact Htruthy.
Qed.

Lemma status_arguments_NoDup (token w sv : json) :
  NoDup (keys [("token", token); ("millisecondsTimeout", w);
               ("lastKnownStatusVersion", sv)]).
Proof.
  cbn. repeat constructor; cbn; intuition discriminate.
Qed.

(** C6, as the code has it.  For a trackable response, [GetStatus] calls
    [__callMethod] once, on "get-status" with the three arguments [token],
    [millisecondsTimeout], [lastKnownStatusVersion] and automatic handling
    off.  What goes on the wire is those of the three whose value is true in
    Python's sense: all three when the token is not empty, the wait time not
    zero and the text of the status version not empty.  Whatever the reply
    holds (a token and a status version too) and whatever the client's
    default for automatic handling, [GetStatus] ends after that one request,
    with no callback: it returns the decoded reply when the token presence
    check returns on it, which it does on every object whose token, if it has
    one, is null or a string; when the check raises on the reply,
    [GetStatus] raises that [TypeError]. *)
Theorem C6_GetStatus_single_call
    (self : Client) (urlopen : Transport) (fuel : nat) (jsonValues : json)
    (token sv : json) (waitTime' : option Z) (rs : list Request)
    (decoded : json) :
  let w := GetStatus_waitTime self waitTime' in
  let arguments := [("token", token);
                    ("millisecondsTimeout", JInt w);
                    ("lastKnownStatusVersion", JStr (py_str sv))] in
  let request :=
    mkRequest (api_url self EmptyString "get-status")
      (urlencode (filter (fun kv => truthy (snd kv)) arguments)) in
  let check := outcome (__hasToken self decoded) (rs ++ [request])%list in
  outcome (__hasToken self jsonValues) rs = Return true ->
  py_getitem jsonValues "token" = Ok token ->
  py_getitem jsonValues "statusVersion" = Ok sv ->
  urlopen rs request = Body decoded ->
  (exists es,
     GetStatus self urlopen (S fuel) jsonValues waitTime' rs
     = (match check with
        | Return _ => Return decoded
        | Raise e => Raise e
        | OutOfFuel => OutOfFuel
        end, es)
     /\ quiet es = [Sent request])
  /\ (check = Raise TypeError \/ exists b, check = Return b)
  /\ (forall members,
        decoded = JObj members ->
        (forall tok, dict_get "token" members = Some tok ->
                     tok = JNull \/ exists s, tok = JStr s) ->
        exists b, check = Return b)
  /\ (truthy token = true -> w <> 0 -> py_str sv <> EmptyString ->
      data request = urlencode arguments).
Proof.
  intros w arguments request check Hcheck Htok Hsv Hreply. subst check.
  rewrite hasToken_outcome in *.
  destruct (token_check_true_inv _ Hcheck) as (members & tok & sv0 & -> & Ht & Hs).
  assert (token = JStr tok) as ->.
  { unfold py_getitem in Htok. rewrite Ht in Htok. congruence. }
  assert (Hreq : request = status_request self (JStr tok) w sv).
  { unfold request, status_request, arguments.
    rewrite marshal_filter by apply status_arguments_NoDup. reflexivity. }
  assert (Hcases : token_check decoded = Raise TypeError
                   \/ exists b, token_check decoded = Return b).
  { destruct (token_check_cases decoded) as [H | [H | (m & t & v & H & _)]];
      eauto. }
  split; [|split; [|split]].
  - rewrite Hreq in *. destruct Hcases as [Hc | (b & Hc)]; rewrite Hc.
    + destruct (callMethod_check_raises self urlopen fuel "get-status"
                  [("token", JStr tok);
                   ("millisecondsTimeout", JInt w);
                   ("lastKnownStatusVersion", JStr (py_str sv))]
                  EmptyString (Some false) rs decoded TypeError Hreply Hc)
        as (es' & Hcall & Hq).
      eexists. split; [eapply GetStatus_calls; eassumption|].
      quiet_events. exact Hq.
    + eapply GetStatus_returns; eauto.
  - exact Hcases.
  - intros members' -> Hshape. rewrite token_check_obj.
    destruct (dict_get "token" members') as [t|] eqn:Et; [|eauto].
    destruct (Hshape t eq_refl) as [-> | (s & ->)]; [eauto|].
    destruct (dict_get "statusVersion" members'); eauto.
  - intros Htruthy Hw Hstr. unfold request, arguments.
    cbn [data filter snd]. rewrite Htruthy.
    unfold truthy at 1. destruct (Z.eqb_spec w 0) as [|_]; [contradiction|].
    unfold truthy.
    destruct (String.eqb_spec (py_str sv) EmptyString) as [|_]; [contradiction|].
    reflexivity.
Qed.

(** The reply is itself a running task with a token, and the default client
    handles tokens by itself: [GetStatus] still returns it at once.  A reply
    whose token is a number makes it raise [TypeError] after the request. *)
Lemma C6_GetStatus_single_call_witness :
  (exists es,
     GetStatus server_Client (scripted [Body scenario_refresh1]) 1
       scenario_initial None []
     = (Return scenario_refresh1, es)
     /\ quiet es
        = [Sent (mkRequest "https://127.0.0.1:8463/api//get-status"
                   "token=T1&millisecondsTimeout=1000&lastKnownStatusVersion=1")])
  /\ (exists es,
        GetStatus server_Client
          (scripted [Body (JObj [("statusCode", JStr "completed");
                                 ("token", JInt 5); ("statusVersion", JInt 1)])]) 1
          scenario_initial None []
        = (Raise TypeError, es)
        /\ quiet es
           = [Sent (mkRequest "https://127.0.0.1:8463/api//get-status"
                      "token=T1&millisecondsTimeout=1000&lastKnownStatusVersion=1")]).
Proof.
  split.
  - apply (proj1 (C6_GetStatus_single_call server_Client
                    (scripted [Body scenario_refresh1]) 0 scenario_initial
                    (JStr "T1") (JInt 1) None [] scenario_refresh1
                    eq_refl eq_refl eq_refl eq_refl)).
  - apply (proj1 (C6_GetStatus_single_call server_Client
                    (scripted [Body (JObj [("statusCode", JStr "completed");
                                           ("token", JInt 5);
                                           ("statusVersion", JInt 1)])]) 0
                    scenario_initial (JStr "T1") (JInt 1) None []
                    (JObj [("statusCode", JStr "completed");
                           ("token", JInt 5); ("statusVersion", JInt 1)])
                    eq_refl eq_refl eq_refl eq_refl)).
Defined.

(** C6 as stated fails: a client whose wait time is 0 sends status requests
    that carry [token] and [lastKnownStatusVersion] and no
    [millisecondsTimeout]. *)
Lemma C6_counterexample :
  requests
    (emitted
       (GetStatus (mkClient "admin" "admin" "127.0.0.1" 8463 true 0 None 2)
          (scripted [Body scenario_refresh1]) 1 scenario_initial None) [])
  = [mkRequest "https://127.0.0.1:8463/api//get-status"
       "token=T1&lastKnownStatusVersion=1"].
Proof. reflexivity. Qed.

(** C7 fails on the code: a wait time of 0 given for the call is tested for
    truth, not for [None], and replaced by the client's default.  With the
    default client, [GetStatus(response, waitTime=0)] asks for
    [millisecondsTimeout=1000].  Every other value given for the call is used,
    and the default is used when none is given; [__handleToken] tests its own
    [waitTime] with [is not None] and keeps a 0. *)
Theorem C7_zero_wait_time_replaced :
  GetStatus server_Client (scripted [Body scenario_refresh1]) 1
    scenario_initial (Some 0) []
  = (Return scenario_refresh1,
     [Sent (mkRequest "https://127.0.0.1:8463/api//get-status"
              "token=T1&millisecondsTimeout=1000&lastKnownStatusVersion=1")])
  /\ (forall self, GetStatus_waitTime self (Some 0) = waitTime self)
  /\ (forall self w, w <> 0 -> GetStatus_waitTime self (Some w) = w)
  /\ (forall self, GetStatus_waitTime self None = waitTime self)
  /\ (forall self, handleToken_waitTime self (Some 0) = 0).
Proof.
  repeat split.
  intros self w Hw. unfold GetStatus_waitTime, truthy.
  destruct (Z.eqb_spec w 0); [contradiction | reflexivity].
Qed.

(** ** Status versions *)






(** ** What [__handleToken] presupposes of a response *)

Lemma bind_Return_inv {A B : Type} (m : M A) (k : A -> M B) rs b es :
  bind m k rs = (Return b, es) ->
  exists a es1 es2,
    m rs = (Return a, es1)
    /\ k a (rs ++ requests es1)%list = (Return b, es2)
    /\ es = (es1 ++ es2)%list.
Proof.
  unfold bind. destruct (m rs) as [[a | e | ] es1]; try discriminate.
  destruct (k a _) as [o es2] eqn:Hk. intros H. injection H as -> <-.
  exists a, es1, es2. auto.
Qed.

Lemma lift_Return_inv {A : Type} (r : result A) rs a es :
  lift r rs = (Return a, es) -> r = Ok a.
Proof.
  destruct r as [a' | e]; unfold lift, ret, raise; intros H;
    [injection H as -> _; reflexivity | discriminate].
Qed.

Lemma py_getitem_Err jsonValues k e :
  py_getitem jsonValues k = Err e -> e = KeyError (JStr k) \/ e = TypeError.
Proof.
  destruct jsonValues; cbn; try (intros H; injection H as <-; auto).
  destruct (dict_get k members); [discriminate|].
  intros H; injection H as <-; auto.
Qed.

Lemma py_add_str_Ok s v s' : py_add_str s v = Ok s' -> exists t, v = JStr t.
Proof. destruct v; cbn; try discriminate. eauto. Qed.

Section Shape.

Variable self : Client.
Variable urlopen : Transport.

(** The loop is left only on a response whose [statusCode] is not
    "running". *)
Lemma while_running_Return fuel :
  forall jsonValues wt rs final es,
    while_running self urlopen fuel jsonValues wt rs = (Return final, es) ->
    terminal final.
Proof.
  induction fuel as [|fuel IH]; intros jv wt rs final es H;
    cbn [while_running] in H;
    apply bind_Return_inv in H as (statusCode & es1 & es2 & Hget & Hk & ->);
    apply lift_Return_inv in Hget;
    destruct (py_eq_str statusCode "running") eqn:Hrun.
  - apply bind_Return_inv in Hk as (tok & ? & ? & _ & Hk & ->).
    apply bind_Return_inv in Hk as (msg & ? & ? & _ & Hk & ->).
    apply bind_Return_inv in Hk as (? & ? & ? & _ & Hk & ->).
    discriminate.
  - injection Hk as <- <-. exists statusCode. auto.
  - apply bind_Return_inv in Hk as (tok & ? & ? & _ & Hk & ->).
    apply bind_Return_inv in Hk as (msg & ? & ? & _ & Hk & ->).
    apply bind_Return_inv in Hk as (? & ? & ? & _ & Hk & ->).
    apply bind_Return_inv in Hk as (refreshed & ? & ? & _ & Hk & ->).
    apply bind_Return_inv in Hk as (? & ? & ? & _ & Hk & ->).
    apply bind_Return_inv in Hk as (? & ? & ? & _ & Hk & ->).
    eapply IH. exact Hk.
  - injection Hk as <- <-. exists statusCode. auto.
Qed.

Lemma handleToken_Return fuel jsonValues wt rs final es :
  __handleToken self urlopen fuel jsonValues wt rs = (Return final, es) ->
  terminal final /\ has_string_token final.
Proof.
  intros H. destruct fuel as [|fuel]; cbn [__handleToken] in H;
    apply bind_Return_inv in H as (? & ? & ? & _ & Hk & ->);
    apply bind_Return_inv in Hk as (r & ? & ? & Hloop & Hk & ->);
    [discriminate|].
  apply bind_Return_inv in Hk as (tok & ? & ? & Htok & Hk & ->).
  apply bind_Return_inv in Hk as (msg & ? & ? & Hmsg & Hk & ->).
  apply bind_Return_inv in Hk as (? & ? & ? & _ & Hk & ->).
  injection Hk as <- <-.
  apply lift_Return_inv in Htok. apply lift_Return_inv in Hmsg.
  apply py_add_str_Ok in Hmsg as (t & ->).
  split; [eapply while_running_Return; exact Hloop | exists t; exact Htok].
Qed.

(** Leaving the loop on a response without a string token. *)
Lemma handleToken_finish_raises fuel jsonValues wt rs final es1 :
  callback_returns self jsonValues ->
  while_running self urlopen fuel jsonValues (handleToken_waitTime self wt) rs
  = (Return final, es1) ->
  ~ has_string_token final ->
  exists e es,
    __handleToken self urlopen (S fuel) jsonValues wt rs = (Raise e, es)
    /\ shape_error e.
Proof.
  intros Hcb Hloop Hbad. cbn [__handleToken].
  destruct (py_getitem final "token") as [tok | e] eqn:Htok.
  - destruct tok as [ | b | z | r | s | items | members];
      try (exfalso; apply Hbad; eexists; exact Htok);
      (eexists; eexists; split;
       [ repeat run_step; (eapply run_bind_Return; [exact Hloop|]);
         repeat run_step
       | right; right; reflexivity ]).
  - eexists; eexists; split.
    + repeat run_step. eapply run_bind_Return; [exact Hloop|].
      rewrite (run_bind_lift_Err _ e _ _ Htok). reflexivity.
    + destruct (py_getitem_Err _ _ _ Htok) as [-> | ->];
        [right; left; reflexivity | right; right; reflexivity].
Qed.

(** The loop entered on a response of the wrong shape. *)
Lemma while_running_misshapen fuel jsonValues wt rs :
  ~ has_statusCode jsonValues
  \/ (~ terminal jsonValues /\ ~ has_string_token jsonValues) ->
  exists e,
    while_running self urlopen fuel jsonValues wt rs = (Raise e, [])
    /\ shape_error e.
Proof.
  intros Hbad.
  destruct (py_getitem jsonValues "statusCode") as [statusCode | e] eqn:Hs.
  - destruct Hbad as [Hbad | [Hrun Hbad]];
      [exfalso; apply Hbad; eexists; exact Hs|].
    destruct (py_eq_str statusCode "running") eqn:Hr;
      [|exfalso; apply Hrun; exists statusCode; auto].
    destruct (py_getitem jsonValues "token") as [tok | e] eqn:Htok.
    + destruct tok as [ | b | z | r | s | items | members];
        try (exfalso; apply Hbad; eexists; exact Htok);
        (exists TypeError; split; [|right; right; reflexivity];
         destruct fuel; cbn [while_running]; run_step; rewrite Hr;
         repeat run_step).
    + exists e. split.
      * destruct fuel; cbn [while_running]; run_step; rewrite Hr;
          rewrite (run_bind_lift_Err _ e _ _ Htok); reflexivity.
      * destruct (py_getitem_Err _ _ _ Htok) as [-> | ->];
          [right; left; reflexivity | right; right; reflexivity].
  - exists e. split.
    + destruct fuel; cbn [while_running];
        rewrite (run_bind_lift_Err _ e _ _ Hs); reflexivity.
    + destruct (py_getitem_Err _ _ _ Hs) as [-> | ->];
        [left; reflexivity | right; right; reflexivity].
Qed.

End Shape.

Section Misshapen.

Variable self : Client.
Variable urlopen : Transport.

(** Entered on a response without [statusCode] or without a string token, the
    loop either raises at once or, the response not being "running", is left
    at once with it. *)
Lemma while_running_bad_shape fuel jsonValues wt rs :
  ~ has_statusCode jsonValues \/ ~ has_string_token jsonValues ->
  (exists e,
     while_running self urlopen fuel jsonValues wt rs = (Raise e, [])
     /\ shape_error e)
  \/ (while_running self urlopen fuel jsonValues wt rs = (Return jsonValues, [])
      /\ ~ has_string_token jsonValues).
Proof.
  intros Hbad.
  destruct (py_getitem jsonValues "statusCode") as [statusCode | e] eqn:Hs.
  - destruct Hbad as [Hbad | Hbad]; [exfalso; apply Hbad; eexists; exact Hs|].
    destruct (py_eq_str statusCode "running") eqn:Hr.
    + left. apply while_running_misshapen. right. split; [|exact Hbad].
      intros (c & Hc & Hne). congruence.
    + right. split; [|exact Hbad]. eapply while_running_exit; eassumption.
  - left. apply while_running_misshapen. left.
    intros (c & Hc). congruence.
Qed.

(** A loop that raises, or is left on a response without a string token,
    makes [__handleToken] raise. *)
Lemma handleToken_ends_badly fuel jsonValues wt rs o es1 :
  callback_returns self jsonValues ->
  while_running self urlopen fuel jsonValues (handleToken_waitTime self wt) rs
  = (o, es1) ->
  (exists e, o = Raise e /\ shape_error e)
  \/ (exists final, o = Return final /\ ~ has_string_token final) ->
  exists e es,
    __handleToken self urlopen (S fuel) jsonValues wt rs = (Raise e, es)
    /\ shape_error e.
Proof.
  intros Hcb Hloop [(e & -> & He) | (final & -> & Hbad)].
  - destruct (handleToken_loop_raises self urlopen fuel jsonValues wt rs e es1
                Hcb Hloop) as (es & Hrun & _).
    exists e, es. auto.
  - eapply handleToken_finish_raises; eassumption.
Qed.

Lemma handleToken_bad_initial fuel jsonValues wt rs :
  callback_returns self jsonValues ->
  ~ has_statusCode jsonValues \/ ~ has_string_token jsonValues ->
  exists e es,
    __handleToken self urlopen (S fuel) jsonValues wt rs = (Raise e, es)
    /\ shape_error e.
Proof.
  intros Hcb Hbad.
  destruct (while_running_bad_shape fuel jsonValues
              (handleToken_waitTime self wt) rs Hbad)
    as [(e & Hloop & He) | (Hloop & Hnotok)];
    (eapply handleToken_ends_badly; [exact Hcb | exact Hloop |]); eauto.
Qed.

Lemma handleToken_bad_refreshed fuel initial wt rs0 jv rs n statusCode tok sv
    refreshed :
  let w := handleToken_waitTime self wt in
  callback_returns self initial ->
  polled self urlopen w initial rs0 jv rs n ->
  py_getitem jv "statusCode" = Ok statusCode ->
  py_eq_str statusCode "running" = true ->
  py_getitem jv "token" = Ok (JStr tok) ->
  py_getitem jv "statusVersion" = Ok sv ->
  urlopen rs (status_request self (JStr tok) (GetStatus_waitTime self (Some w)) sv)
  = Body refreshed ->
  callback_returns self refreshed ->
  ~ has_statusCode refreshed \/ ~ has_string_token refreshed ->
  exists e es,
    __handleToken self urlopen (n + 3 + fuel) initial wt rs0 = (Raise e, es)
    /\ shape_error e.
Proof.
  intros w Hcb Hpolled Hs Hrun Ht Hsv Hreply Hcb' Hbad.
  replace (n + 3 + fuel)%nat with (S (n + S (S fuel)))%nat by lia.
  assert (Hturn : exists o es,
             while_running self urlopen (S (S fuel)) jv w rs = (o, es)
             /\ ((exists e, o = Raise e /\ shape_error e)
                 \/ (exists final, o = Return final /\ ~ has_string_token final))).
  { destruct (token_check_cases refreshed)
      as [Hc | [Hc | (members & t & v & Hc & _)]].
    - destruct (GetStatus_returns self urlopen fuel jv tok sv (Some w) rs
                  refreshed false Ht Hsv Hreply Hc) as (es1 & Hget & _).
      destruct (while_running_bad_shape (S fuel) refreshed w
                  (rs ++ requests es1)%list Hbad)
        as [(e & Hrest & He) | (Hrest & Hnotok)];
        destruct (while_running_turn self urlopen (S fuel) jv w rs statusCode tok
                    refreshed es1 _ _ Hs Hrun Ht Hget Hcb' Hrest)
        as (es & Hloop & _); eauto 8.
    - destruct (callMethod_check_raises self urlopen fuel "get-status"
                  [("token", JStr tok);
                   ("millisecondsTimeout", JInt (GetStatus_waitTime self (Some w)));
                   ("lastKnownStatusVersion", JStr (py_str sv))]
                  EmptyString (Some false) rs refreshed TypeError Hreply Hc)
        as (es' & Hcall & _).
      pose proof (GetStatus_calls self urlopen fuel jv tok sv (Some w) rs _ _
                    Ht Hsv Hcall) as Hget.
      destruct (while_running_refresh_raises self urlopen (S fuel) jv w rs
                  statusCode tok TypeError _ Hs Hrun Ht Hget)
        as (es & Hloop & _).
      exists (Raise TypeError), es. split; [exact Hloop|].
      left. exists TypeError. split; [reflexivity | right; right; reflexivity].
    - destruct (GetStatus_returns self urlopen fuel jv tok sv (Some w) rs
                  refreshed true Ht Hsv Hreply Hc) as (es1 & Hget & _).
      destruct (while_running_bad_shape (S fuel) refreshed w
                  (rs ++ requests es1)%list Hbad)
        as [(e & Hrest & He) | (Hrest & Hnotok)];
        destruct (while_running_turn self urlopen (S fuel) jv w rs statusCode tok
                    refreshed es1 _ _ Hs Hrun Ht Hget Hcb' Hrest)
        as (es & Hloop & _); eauto 8. }
  destruct Hturn as (o & es & Hturn & Ho).
  destruct (while_running_polled _ _ _ _ _ _ _ _ Hpolled fuel o es Hturn)
    as (es' & _ & Hloop & _).
  eapply handleToken_ends_badly; eassumption.
Qed.

End Misshapen.

(** ** Dispatch of a top-level call *)

(** With a token to handle and no fuel for the handler, the model stops. *)
Lemma callMethod_handled_no_fuel self urlopen method arguments mode aht rs decoded :
  urlopen rs (request_of self method arguments mode) = Body decoded ->
  token_check decoded = Return true ->
  match aht with Some b => b | None => autoHandleToken self end = true ->
  exists es,
    __callMethod self urlopen 0 method arguments mode aht rs = (OutOfFuel, es).
Proof.
  unfold request_of. intros Hreply Hc Haht. cbn [__callMethod]. rewrite Haht.
  eexists. do 4 run_step. rewrite Hreply. repeat run_step.
Qed.

(** A handled call returns what [__handleToken] returns: a response that is
    not "running". *)
Lemma callMethod_handled_Return self urlopen fuel method arguments mode aht rs
    decoded final es :
  urlopen rs (request_of self method arguments mode) = Body decoded ->
  token_check decoded = Return true ->
  match aht with Some b => b | None => autoHandleToken self end = true ->
  __callMethod self urlopen fuel method arguments mode aht rs = (Return final, es) ->
  terminal final /\ has_string_token final.
Proof.
  intros Hreply Hc Haht Hcall. destruct fuel as [|fuel].
  - destruct (callMethod_handled_no_fuel self urlopen method arguments mode aht rs
                decoded Hreply Hc Haht) as (es0 & H0).
    congruence.
  - destruct (__handleToken self urlopen fuel decoded None
                (rs ++ [request_of self method arguments mode])%list)
      as [o es'] eqn:Hh.
    destruct (callMethod_handled self urlopen fuel method arguments mode aht rs
                decoded o es' Hreply Hc Haht Hh) as (es1 & Hrun & _).
    rewrite Hrun in Hcall. injection Hcall as -> _.
    eapply handleToken_Return. exact Hh.
Qed.

Lemma requests_notified self jsonValues : requests (notified self jsonValues) = [].
Proof. unfold notified. destruct (callbackStatus self); reflexivity. Qed.

(** Turns that went well, up to a response that is not "running": the loop
    returns that response, and the requests made are those of the turns. *)
Lemma while_running_polled_exit self urlopen wt jv rs jv' rs' n :
  polled self urlopen wt jv rs jv' rs' n ->
  terminal jv' ->
  forall fuel,
    exists es,
      while_running self urlopen (n + S fuel) jv wt rs = (Return jv', es)
      /\ (rs ++ requests es)%list = rs'.
Proof.
  induction 1 as [jv rs | jv rs statusCode tok refreshed es1 jv' rs' n
                           Hs Hrun Ht Hget Hcb Hpolled IH];
    intros Hdone fuel.
  - destruct Hdone as (statusCode & Hs & Hne).
    exists []. split; [|apply app_nil_r].
    eapply while_running_exit; eassumption.
  - destruct (IH Hdone fuel) as (es2 & Hrest & Hreq).
    destruct (while_running_turn self urlopen (n + S fuel) jv wt rs
                statusCode tok refreshed es1 (Return jv') es2)
      as (es & Hloop & Hq); auto.
    { replace (n + S fuel)%nat with (S (n + fuel))%nat by lia.
      rewrite GetStatus_fuel. exact Hget. }
    exists es. split; [exact Hloop|].
    rewrite (quiet_requests _ _ Hq), !requests_app, !requests_quiet,
      requests_notified, app_nil_l, app_assoc.
    exact Hreq.
Qed.

(** A handled call whose polling goes well up to a response that is not
    "running" returns that response. *)
Lemma callMethod_polled self urlopen fuel method arguments mode aht rs decoded
    n jv rs' :
  urlopen rs (request_of self method arguments mode) = Body decoded ->
  token_check decoded = Return true ->
  match aht with Some b => b | None => autoHandleToken self end = true ->
  callback_returns self decoded ->
  polled self urlopen (waitTime self) decoded
    (rs ++ [request_of self method arguments mode])%list jv rs' n ->
  terminal jv ->
  has_string_token jv ->
  exists es,
    __callMethod self urlopen (n + 3 + fuel) method arguments mode aht rs
    = (Return jv, es)
    /\ (rs ++ requests es)%list = rs'.
Proof.
  intros Hreply Hc Haht Hcb Hpolled Hdone (tok & Htok).
  destruct (while_running_polled_exit _ _ _ _ _ _ _ _ Hpolled Hdone fuel)
    as (es1 & Hloop & Hreq).
  destruct (handleToken_returns self urlopen (n + S fuel) decoded None _ jv es1 tok
              Hcb Hloop Htok) as (es2 & Hh & Hq2).
  destruct (callMethod_handled self urlopen (S (n + S fuel)) method arguments mode
              aht rs decoded (Return jv) es2 Hreply Hc Haht Hh) as (es & Hcall & Hq).
  replace (n + 3 + fuel)%nat with (S (S (n + S fuel)))%nat by lia.
  exists es. split; [exact Hcall|].
  rewrite (quiet_requests _ _ Hq). cbn [requests flat_map app].
  fold (requests (quiet es2)). rewrite requests_quiet, (quiet_requests _ _ Hq2),
    requests_app, requests_notified, requests_quiet, app_nil_l.
  rewrite <- Hreq, <- app_assoc. reflexivity.
Qed.

(** C2.  What a top-level call does with a decoded response.  When the token
    presence check fails, and when it passes with automatic handling off for
    the call (the per-call flag if given, else the client's default), the call
    returns the response as it came, whatever its [statusCode], having made
    its one request.  When the check passes with automatic handling on, the
    call runs [__handleToken] on that response after the request and ends as
    it ends: same result or exception, and no other request or callback than
    those of [__handleToken]; what the call then returns is never a "running"
    response, and when the polling goes well up to a response that is not
    "running", it is that response, with no request besides the call's own and
    those of the polling.  A response on which the check itself raises makes
    the call raise that exception after its request; the check has these
    three outcomes and no other. *)
Theorem C2_dispatch
    (self : Client) (urlopen : Transport) (fuel : nat) (method : string)
    (arguments : list (string * json)) (mode : string) (aht : option bool)
    (rs : list Request) (decoded : json) :
  let request := request_of self method arguments mode in
  let effective := match aht with Some b => b | None => autoHandleToken self end in
  let check := outcome (__hasToken self decoded) (rs ++ [request])%list in
  urlopen rs request = Body decoded ->
  (check = Return false ->
   exists es,
     __callMethod self urlopen fuel method arguments mode aht rs
     = (Return decoded, es)
     /\ quiet es = [Sent request])
  /\ (check = Return true -> effective = false ->
      exists es,
        __callMethod self urlopen fuel method arguments mode aht rs
        = (Return decoded, es)
        /\ quiet es = [Sent request])
  /\ (check = Return true -> effective = true ->
      (forall o es',
         __handleToken self urlopen fuel decoded None (rs ++ [request])%list
         = (o, es') ->
         exists es,
           __callMethod self urlopen (S fuel) method arguments mode aht rs
           = (o, es)
           /\ quiet es = Sent request :: quiet es')
      /\ (forall fuel' final es,
            __callMethod self urlopen fuel' method arguments mode aht rs
            = (Return final, es) ->
            terminal final /\ has_string_token final)
      /\ (forall n jv rs',
            callback_returns self decoded ->
            polled self urlopen (waitTime self) decoded (rs ++ [request])%list
              jv rs' n ->
            terminal jv ->
            has_string_token jv ->
            exists es,
              __callMethod self urlopen (n + 3 + fuel) method arguments mode aht rs
              = (Return jv, es)
              /\ (rs ++ requests es)%list = rs'))
  /\ (forall e,
        check = Raise e ->
        exists es,
          __callMethod self urlopen fuel method arguments mode aht rs
          = (Raise e, es)
          /\ quiet es = [Sent request])
  /\ (check = Return false \/ check = Return true \/ check = Raise TypeError).
Proof.
  intros request effective check Hreply. subst check.
  rewrite hasToken_outcome. split; [|split; [|split; [|split]]].
  - intros Hc. apply callMethod_unhandled; auto.
  - intros Hc Hoff. apply callMethod_unhandled; auto.
  - intros Hc Hon. split; [|split].
    + intros o es' Hh. eapply callMethod_handled; eauto.
    + intros fuel' final es. eapply callMethod_handled_Return; eauto.
    + intros n jv rs'. apply callMethod_polled; auto.
  - intros e Hc.
    exact (callMethod_check_raises self urlopen fuel method arguments mode aht rs
             decoded e Hreply Hc).
  - destruct (token_check_cases decoded) as [H | [H | (m & t & v & H & _)]]; auto.
Qed.

(** A call with automatic handling switched off returns the running task; the
    same call of a client that handles tokens polls twice and returns the
    completed task. *)
Lemma C2_dispatch_witness :
  (exists es,
     __callMethod server_Client (scripted [Body scenario_initial]) 0
       "VerifyStore" [("id", JInt 1)] "invoke" (Some false) []
     = (Return scenario_initial, es)
     /\ quiet es
        = [Sent (mkRequest "https://127.0.0.1:8463/api/invoke/VerifyStore" "id=1")])
  /\ (exists es,
        __callMethod recording_Client
          (scripted [Body scenario_initial; Body scenario_refresh1;
                     Body scenario_refresh2])
          5 "VerifyStore" [("id", JInt 1)] "invoke" None []
        = (Return scenario_refresh2, es)
        /\ ([] ++ requests es)%list
           = [mkRequest "https://127.0.0.1:8463/api/invoke/VerifyStore" "id=1";
              status_request recording_Client (JStr "T1") 1000 (JInt 1);
              status_request recording_Client (JStr "T1") 1000 (JInt 2)]).
Proof.
  split.
  - apply (C2_dispatch server_Client (scripted [Body scenario_initial]) 0
             "VerifyStore" [("id", JInt 1)] "invoke" (Some false) []
             scenario_initial);
      reflexivity.
  - apply (proj2 (proj2 (proj1 (proj2 (proj2
             (C2_dispatch recording_Client
                (scripted [Body scenario_initial; Body scenario_refresh1;
                           Body scenario_refresh2])
                0 "VerifyStore" [("id", JInt 1)] "invoke" None []
                scenario_initial eq_refl))) eq_refl eq_refl))
             2%nat scenario_refresh2).
    + simpl. split; [discriminate | reflexivity].
    + eapply polled_S with (statusCode := JStr "running") (tok := "T1")
                           (refreshed := scenario_refresh1)
                           (es := [Sent (status_request recording_Client
                                           (JStr "T1") 1000 (JInt 1))]);
        [ reflexivity | reflexivity | reflexivity | reflexivity
        | simpl; split; [discriminate | reflexivity] | ].
      eapply polled_S with (statusCode := JStr "running") (tok := "T1")
                           (refreshed := scenario_refresh2)
                           (es := [Sent (status_request recording_Client
                                           (JStr "T1") 1000 (JInt 2))]);
        [ reflexivity | reflexivity | reflexivity | reflexivity
        | simpl; split; [discriminate | reflexivity] | ].
      apply polled_O.
    + exists (JStr "completed"). split; reflexivity.
    + exists "T1". reflexivity.
Defined.

(** ** The shape of a handled response *)

(** C9.  Whatever the log level, [__handleToken] needs more of a response
    than the token presence check asks.  What it returns has a [statusCode]
    other than "running" and a string [token].  An initial response without
    [statusCode], or without a string [token], makes it raise.  So does a
    refreshed response of that kind, in whichever turn of the loop it
    arrives, and so the response that ends the task: when it has no [token],
    or one that is not a string, the handler raises [KeyError] or [TypeError]
    after the refresh and does not return it.  (The callback is taken to
    return; the exception is then one of [KeyError("statusCode")],
    [KeyError("token")], [TypeError].) *)
Theorem C9_handler_presupposes_shape (self : Client) (urlopen : Transport) :
  (forall fuel jsonValues wt rs final es,
     __handleToken self urlopen fuel jsonValues wt rs = (Return final, es) ->
     terminal final /\ has_string_token final)
  /\ (forall fuel jsonValues wt rs,
        callback_returns self jsonValues ->
        ~ has_statusCode jsonValues \/ ~ has_string_token jsonValues ->
        exists e es,
          __handleToken self urlopen (S fuel) jsonValues wt rs = (Raise e, es)
          /\ shape_error e)
  /\ (forall fuel initial wt rs0 jv rs n statusCode tok sv refreshed,
        callback_returns self initial ->
        polled self urlopen (handleToken_waitTime self wt) initial rs0 jv rs n ->
        py_getitem jv "statusCode" = Ok statusCode ->
        py_eq_str statusCode "running" = true ->
        py_getitem jv "token" = Ok (JStr tok) ->
        py_getitem jv "statusVersion" = Ok sv ->
        urlopen rs
          (status_request self (JStr tok)
             (GetStatus_waitTime self (Some (handleToken_waitTime self wt))) sv)
        = Body refreshed ->
        callback_returns self refreshed ->
        ~ has_statusCode refreshed \/ ~ has_string_token refreshed ->
        exists e es,
          __handleToken self urlopen (n + 3 + fuel) initial wt rs0 = (Raise e, es)
          /\ shape_error e).
Proof.
  split; [|split].
  - intros fuel jsonValues wt rs final es. apply handleToken_Return.
  - intros fuel jsonValues wt rs. apply handleToken_bad_initial.
  - intros fuel initial wt rs0 jv rs n statusCode tok sv refreshed.
    apply handleToken_bad_refreshed.
Qed.

(** The task completes and the completed response has no token: the handler
    raises [KeyError("token")], at the default log level. *)
Lemma C9_handler_presupposes_shape_witness :
  exists e es,
    __handleToken recording_Client
      (scripted [Body (JObj [("statusCode", JStr "completed");
                             ("result", JObj [("id", JInt 42)])])])
      3 scenario_initial None []
    = (Raise e, es)
    /\ shape_error e.
Proof.
  apply (proj2 (proj2 (C9_handler_presupposes_shape recording_Client
                         (scripted [Body (JObj [("statusCode", JStr "completed");
                                                ("result", JObj [("id", JInt 42)])])])))
           0%nat scenario_initial None [] scenario_initial [] 0%nat
           (JStr "running") "T1" (JInt 1)
           (JObj [("statusCode", JStr "completed");
                  ("result", JObj [("id", JInt 42)])])).
  - simpl. split; [discriminate | reflexivity].
  - apply polled_O.
  - reflexivity.
  - reflexivity.
  - reflexivity.
  - reflexivity.
  - reflexivity.
  - simpl. split; [discriminate | reflexivity].
  - right. intros (tok & Htok). discriminate.
Defined.

(** ** What is sent of the arguments *)

Lemma callMethod_first_request self urlopen fuel method arguments mode aht rs :
  exists rest,
    requests (emitted (__callMethod self urlopen fuel method arguments mode aht) rs)
    = request_of self method arguments mode :: rest.
Proof.
  destruct (callMethod_sends self urlopen fuel method arguments mode aht rs)
    as (rest & Hq).
  exists (requests rest). rewrite <- requests_quiet, Hq. reflexivity.
Qed.

(** C10.  In both clients [__callMethod] sends, form-encoded, the arguments
    whose value is true in Python's sense, in the order of the [dict], and
    leaves out the others: [None], [False], 0, the empty string and empty
    collections are never sent.  So [GetChildFolders(maxLevels=0)] and
    [GetProfiles(raw=False)] of the server client post an empty body, and
    those of the SPE client post the instance alone. *)
Theorem C10_falsy_arguments_omitted
    (self : Client) (urlopen : Transport) (fuel : nat) (method : string)
    (arguments : list (string * json)) (mode : string) (aht : option bool)
    (rs : list Request) :
  NoDup (keys arguments) ->
  let sent := filter (fun kv => truthy (snd kv)) arguments in
  (exists rest,
     quiet (emitted (__callMethod self urlopen fuel method arguments mode aht) rs)
     = Sent (mkRequest (api_url self mode method) (urlencode sent)) :: rest)
  /\ (forall k v, In (k, v) sent <-> In (k, v) arguments /\ truthy v = true)
  /\ (truthy JNull = false /\ truthy (JBool false) = false
      /\ truthy (JInt 0) = false /\ truthy (JStr EmptyString) = false
      /\ truthy (JArr []) = false /\ truthy (JObj []) = false)
  /\ (exists rest,
        requests (emitted (Server.GetChildFolders server_Client urlopen fuel
                             JNull (JInt 0) aht) rs)
        = mkRequest "https://127.0.0.1:8463/api/invoke/GetChildFolders"
            EmptyString :: rest)
  /\ (exists rest,
        requests (emitted (Server.GetProfiles server_Client urlopen fuel
                             (JBool false) aht) rs)
        = mkRequest "https://127.0.0.1:8463/api/invoke/GetProfiles"
            EmptyString :: rest)
  /\ (exists rest,
        requests (emitted (Spe.GetChildFolders spe_Client urlopen fuel
                             (JStr "x1") JNull (JInt 0) aht) rs)
        = mkRequest "https://127.0.0.1:8474/api/invoke/GetChildFolders"
            "instanceID=x1" :: rest)
  /\ (exists rest,
        requests (emitted (Spe.GetProfiles spe_Client urlopen fuel
                             (JStr "x1") (JBool false) aht) rs)
        = mkRequest "https://127.0.0.1:8474/api/invoke/GetProfiles"
            "instanceID=x1" :: rest).
Proof.
  intros Hnd sent. subst sent.
  split; [|split; [|split; [|repeat split]]].
  - destruct (callMethod_sends self urlopen fuel method arguments mode aht rs)
      as (rest & Hq).
    exists rest. rewrite Hq. unfold request_of.
    rewrite (marshal_filter arguments Hnd). reflexivity.
  - intros k v. rewrite filter_In. reflexivity.
  - repeat split.
  - apply (callMethod_first_request server_Client).
  - apply (callMethod_first_request server_Client).
  - apply (callMethod_first_request spe_Client).
  - apply (callMethod_first_request spe_Client).
Qed.

(** [GetChildFolders("a b", maxLevels=0)]: the folder is sent, the 0 is
    not. *)
Lemma C10_falsy_arguments_omitted_witness :
  exists rest,
    quiet (emitted (__callMethod server_Client (scripted [Body (JArr [])]) 0
                      "GetChildFolders"
                      [("folder", JStr "a b"); ("maxLevels", JInt 0)]
                      "invoke" None) [])
    = Sent (mkRequest "https://127.0.0.1:8463/api/invoke/GetChildFolders"
              "folder=a+b") :: rest.
Proof.
  apply (C10_falsy_arguments_omitted server_Client (scripted [Body (JArr [])]) 0
           "GetChildFolders" [("folder", JStr "a b"); ("maxLevels", JInt 0)]
           "invoke" None []).
  cbn. repeat constructor; cbn; intuition discriminate.
Defined.

(** * Further properties *)

(** ** Failures of the transport and of the check *)

(** X1.  A call whose request fails returns nothing and makes no second
    request and no callback.  An [HTTPError] is raised again as it is, any
    other exception of [urlopen] comes wrapped in [MailStoreBaseError], and the
    exception of a body that cannot be read or decoded comes as it is.  The
    first two are logged as ERROR, when the log level is 1 or more; the third
    is not logged at all above what the request itself logs. *)
Theorem X1_transport_failure
    (self : Client) (urlopen : Transport) (fuel : nat) (method : string)
    (arguments : list (string * json)) (mode : string) (aht : option bool)
    (rs : list Request) :
  let request := request_of self method arguments mode in
  let run := __callMethod self urlopen fuel method arguments mode aht rs in
  (forall code msg fp_method,
     urlopen rs request = RaisesHTTPError code msg fp_method ->
     fst run = Raise (HTTPError code msg)
     /\ quiet (snd run) = [Sent request]
     /\ (1 <= logLevel self -> exists line, In (Printed "ERROR" [JStr line]) (snd run)))
  /\ (forall e,
        urlopen rs request = RaisesOther e ->
        fst run = Raise (MailStoreBaseError e)
        /\ quiet (snd run) = [Sent request]
        /\ (1 <= logLevel self ->
            In (Printed "ERROR" [JStr "Unhandled Exception"]) (snd run)))
  /\ (forall e,
        urlopen rs request = BadBody e ->
        fst run = Raise e
        /\ quiet (snd run) = [Sent request]
        /\ (logLevel self < 3 -> snd run = [Sent request])).
Proof.
  intros request run. subst request run. unfold request_of in *.
  assert (Hlog1 : 1 <= logLevel self -> forall args,
             log_lines self 1 args = [Printed "ERROR" args]).
  { intros H args. unfold log_lines, emitted, __logprint.
    destruct (Z.leb_spec 1 (logLevel self)); [reflexivity | lia]. }
  split; [|split].
  - intros code msg fpm Hreply.
    assert (Hrun :
               __callMethod self urlopen fuel method arguments mode aht rs
               = (Raise (HTTPError code msg),
                  (log_lines self 4 [JStr "__callMethod: METHOD:"; JStr method]
                   ++ log_lines self 4 [JStr "__callMethod: ARGUMENTS:"; JObj arguments]
                   ++ log_lines self 3
                        [JStr "__callMethod: HTTP POST:";
                         JStr (api_url self mode method);
                         JStr (urlencode (marshal arguments))]
                   ++ Sent (mkRequest (api_url self mode method)
                              (urlencode (marshal arguments)))
                   :: log_lines self 1
                        [JStr (py_str_int code ++ " " ++ msg ++ " "
                               ++ api_url self mode method ++ " " ++ fpm ++ " "
                               ++ urlencode (marshal arguments))] ++ [])%list)).
    { destruct fuel; cbn [__callMethod];
        do 4 run_step; rewrite Hreply; repeat run_step. }
    rewrite Hrun. cbn [fst snd].
    split; [reflexivity|]. split; [quiet_events|].
    intros H1. eexists. rewrite (Hlog1 H1).
    do 3 (apply in_or_app; right). right. left. reflexivity.
  - intros e Hreply.
    assert (Hrun :
               __callMethod self urlopen fuel method arguments mode aht rs
               = (Raise (MailStoreBaseError e),
                  (log_lines self 4 [JStr "__callMethod: METHOD:"; JStr method]
                   ++ log_lines self 4 [JStr "__callMethod: ARGUMENTS:"; JObj arguments]
                   ++ log_lines self 3
                        [JStr "__callMethod: HTTP POST:";
                         JStr (api_url self mode method);
                         JStr (urlencode (marshal arguments))]
                   ++ Sent (mkRequest (api_url self mode method)
                              (urlencode (marshal arguments)))
                   :: log_lines self 1 [JStr "Unhandled Exception"] ++ [])%list)).
    { destruct fuel; cbn [__callMethod];
        do 4 run_step; rewrite Hreply; repeat run_step. }
    rewrite Hrun. cbn [fst snd].
    split; [reflexivity|]. split; [quiet_events|].
    intros H1. rewrite (Hlog1 H1).
    do 3 (apply in_or_app; right). right. left. reflexivity.
  - intros e Hreply.
    assert (Hrun :
               __callMethod self urlopen fuel method arguments mode aht rs
               = (Raise e,
                  (log_lines self 4 [JStr "__callMethod: METHOD:"; JStr method]
                   ++ log_lines self 4 [JStr "__callMethod: ARGUMENTS:"; JObj arguments]
                   ++ log_lines self 3
                        [JStr "__callMethod: HTTP POST:";
                         JStr (api_url self mode method);
                         JStr (urlencode (marshal arguments))]
                   ++ [Sent (mkRequest (api_url self mode method)
                               (urlencode (marshal arguments)))])%list)).
    { destruct fuel; cbn [__callMethod];
        do 4 run_step; rewrite Hreply; repeat run_step. }
    rewrite Hrun. cbn [fst snd].
    split; [reflexivity|]. split; [quiet_events|].
    intros Hlow. rewrite !log_lines_hidden by lia. reflexivity.
Qed.

(** The connection is refused. *)
Lemma X1_transport_failure_witness :
  fst (__callMethod server_Client (scripted []) 0 "GetUsers" [] "invoke" None [])
  = Raise (MailStoreBaseError (Foreign "URLError"))
  /\ quiet (snd (__callMethod server_Client (scripted []) 0 "GetUsers" []
                   "invoke" None []))
     = [Sent (mkRequest "https://127.0.0.1:8463/api/invoke/GetUsers" EmptyString)]
  /\ (1 <= logLevel server_Client ->
      In (Printed "ERROR" [JStr "Unhandled Exception"])
        (snd (__callMethod server_Client (scripted []) 0 "GetUsers" []
                "invoke" None []))).
Proof.
  apply (proj1 (proj2 (X1_transport_failure server_Client (scripted []) 0
                         "GetUsers" [] "invoke" None []))
           (Foreign "URLError")).
  reflexivity.
Defined.

(** X2.  A response that is not a JSON object.  The token presence check
    tests ["token" in jsonValues] on whatever was decoded, so: a response that
    is a number, a boolean or null makes the call raise [TypeError] after its
    request; a list is returned as it is unless one of its items is the string
    "token", and a string unless it contains "token", in which cases the call
    raises [TypeError] as well.  This is so with automatic handling on or
    off, and nothing but the one request is done. *)
Theorem X2_response_not_an_object
    (self : Client) (urlopen : Transport) (fuel : nat) (method : string)
    (arguments : list (string * json)) (mode : string) (aht : option bool)
    (rs : list Request) (decoded : json) :
  let request := request_of self method arguments mode in
  let run := __callMethod self urlopen fuel method arguments mode aht rs in
  urlopen rs request = Body decoded ->
  (forall members, decoded <> JObj members) ->
  quiet (snd run) = [Sent request]
  /\ fst run
     = match decoded with
       | JArr items =>
           if existsb (fun x => py_eq_str x "token") items
           then Raise TypeError else Return decoded
       | JStr s =>
           match index 0 "token" s with
           | Some _ => Raise TypeError
           | None => Return decoded
           end
       | _ => Raise TypeError
       end.
Proof.
  intros request run Hreply Hnot. subst request run.
  assert (Hcases :
            (token_check decoded = Raise TypeError
             /\ match decoded with
                | JArr items => existsb (fun x => py_eq_str x "token") items = true
                | JStr s => index 0 "token" s <> None
                | _ => True
                end)
            \/ (token_check decoded = Return false
                /\ match decoded with
                   | JArr items => existsb (fun x => py_eq_str x "token") items = false
                   | JStr s => index 0 "token" s = None
                   | _ => False
                   end)).
  { destruct decoded as [ | b | z | r | s | items | members];
      try (left; split; [reflexivity | exact I]).
    - unfold token_check, outcome, __hasToken; cbn.
      destruct (index 0 "token" s); cbn;
        [left; split; [reflexivity | discriminate] | right; split; reflexivity].
    - unfold token_check, outcome, __hasToken; cbn.
      change (fun x : json => match x with
                              | JStr s => (s =? "token")%string
                              | _ => false
                              end)
        with (fun x : json => py_eq_str x "token").
      destruct (existsb _ items); cbn;
        [left; split; reflexivity | right; split; reflexivity].
    - exfalso. exact (Hnot members eq_refl). }
  destruct Hcases as [[Hc Hshape] | [Hc Hshape]].
  - destruct (callMethod_check_raises self urlopen fuel method arguments mode aht
                rs decoded TypeError Hreply Hc) as (es & Hrun & Hq).
    rewrite Hrun. cbn [fst snd]. split; [exact Hq|].
    destruct decoded; try reflexivity.
    + destruct (index 0 "token" s); [reflexivity | congruence].
    + rewrite Hshape. reflexivity.
  - destruct (callMethod_unhandled self urlopen fuel method arguments mode aht
                rs decoded Hreply (or_introl Hc)) as (es & Hrun & Hq).
    rewrite Hrun. cbn [fst snd]. split; [exact Hq|].
    destruct decoded; try contradiction.
    + rewrite Hshape. reflexivity.
    + rewrite Hshape. reflexivity.
Qed.

(** The server answers [true]. *)
Lemma X2_response_not_an_object_witness :
  quiet (snd (__callMethod server_Client (scripted [Body (JBool true)]) 0
                "RetryOpenStores" [] "invoke" None []))
  = [Sent (mkRequest "https://127.0.0.1:8463/api/invoke/RetryOpenStores"
             EmptyString)]
  /\ fst (__callMethod server_Client (scripted [Body (JBool true)]) 0
            "RetryOpenStores" [] "invoke" None [])
     = Raise TypeError.
Proof.
  apply (X2_response_not_an_object server_Client (scripted [Body (JBool true)]) 0
           "RetryOpenStores" [] "invoke" None [] (JBool true)).
  - reflexivity.
  - discriminate.
Defined.

(** ** Cancelling *)

Lemma CancelAsync_calls self urlopen fuel jsonValues tok rs o es' :
  token_check jsonValues = Return true ->
  py_getitem jsonValues "token" = Ok (JStr tok) ->
  __callMethod self urlopen fuel "cancel-async" [("token", JStr tok)]
    EmptyString None rs = (o, es') ->
  CancelAsync self urlopen fuel jsonValues rs
  = (o, (hasToken_lines self jsonValues ++ es')%list).
Proof.
  intros Hc Ht Hcall. unfold CancelAsync. repeat run_step. exact Hcall.
Qed.

(** X3.  [CancelAsync] on a trackable response makes one request, to
    "cancel-async" with the token as its only argument, and then treats the
    answer as any top-level call does, under the client's own default.  When
    the token presence check returns [False] on the answer, or [True] with a
    client that does not handle tokens itself, the answer is returned as it
    is.  When the check returns [True] and the client handles tokens,
    [CancelAsync] ends as [__handleToken] ends on that answer, so it polls,
    and what it returns is not "running".  (Unlike [GetStatus], which
    switches the handling off for its call.)  When the check raises on the
    answer, [CancelAsync] raises that exception after its request, whatever
    the client's setting.  The check has no other outcome. *)
Theorem X3_CancelAsync_dispatch
    (self : Client) (urlopen : Transport) (fuel : nat) (jsonValues : json)
    (tok : string) (rs : list Request) (decoded : json) :
  let request :=
    mkRequest (api_url self EmptyString "cancel-async")
      (urlencode (marshal [("token", JStr tok)])) in
  let check := outcome (__hasToken self decoded) (rs ++ [request])%list in
  outcome (__hasToken self jsonValues) rs = Return true ->
  py_getitem jsonValues "token" = Ok (JStr tok) ->
  urlopen rs request = Body decoded ->
  (check = Return false \/ (check = Return true /\ autoHandleToken self = false) ->
   exists es,
     CancelAsync self urlopen fuel jsonValues rs = (Return decoded, es)
     /\ quiet es = [Sent request])
  /\ (check = Return true -> autoHandleToken self = true ->
      (forall o es',
         __handleToken self urlopen fuel decoded None (rs ++ [request])%list
         = (o, es') ->
         exists es,
           CancelAsync self urlopen (S fuel) jsonValues rs = (o, es)
           /\ quiet es = Sent request :: quiet es')
      /\ (forall fuel' final es,
            CancelAsync self urlopen fuel' jsonValues rs = (Return final, es) ->
            terminal final /\ has_string_token final))
  /\ (forall e,
        check = Raise e ->
        exists es,
          CancelAsync self urlopen fuel jsonValues rs = (Raise e, es)
          /\ quiet es = [Sent request])
  /\ (check = Return false \/ check = Return true \/ check = Raise TypeError)
  /\ (tok <> EmptyString -> data request = "token=" ++ quote_plus tok).
Proof.
  intros request check Hc Ht Hreply. subst check.
  rewrite hasToken_outcome in *. split; [|split; [|split; [|split]]].
  - intros Hcheck.
    destruct (callMethod_unhandled self urlopen fuel "cancel-async"
                [("token", JStr tok)] EmptyString None rs decoded Hreply Hcheck)
      as (es' & Hrun & Hq).
    eexists. split; [eapply CancelAsync_calls; eassumption|].
    quiet_events. exact Hq.
  - intros Hcheck Hauto. split.
    + intros o es' Hh.
      destruct (callMethod_handled self urlopen fuel "cancel-async"
                  [("token", JStr tok)] EmptyString None rs decoded o es'
                  Hreply Hcheck Hauto Hh) as (es1 & Hrun & Hq).
      eexists. split; [eapply CancelAsync_calls; eassumption|].
      quiet_events. exact Hq.
    + intros fuel' final es Hrun.
      destruct (__callMethod self urlopen fuel' "cancel-async"
                  [("token", JStr tok)] EmptyString None rs) as [o es'] eqn:Hcall.
      rewrite (CancelAsync_calls self urlopen fuel' jsonValues tok rs o es'
                 Hc Ht Hcall) in Hrun.
      injection Hrun as -> _.
      exact (callMethod_handled_Return self urlopen fuel' "cancel-async"
               [("token", JStr tok)] EmptyString None rs decoded final es'
               Hreply Hcheck Hauto Hcall).
  - intros e Hcheck.
    destruct (callMethod_check_raises self urlopen fuel "cancel-async"
                [("token", JStr tok)] EmptyString None rs decoded e Hreply Hcheck)
      as (es' & Hrun & Hq).
    eexists. split; [eapply CancelAsync_calls; eassumption|].
    quiet_events. exact Hq.
  - destruct (token_check_cases decoded) as [H | [H | (m & t & v & H & _)]]; auto.
  - intros Hne. unfold request. cbn [data]. unfold marshal. cbn.
    destruct tok as [|c tok']; [contradiction|]. reflexivity.
Qed.

(** The cancelled task answers with a token, still running; the refresh that
    the default client then makes finds it cancelled.  An answer whose token
    is a number makes [CancelAsync] raise, also for a client that leaves
    tokens to its caller. *)
Lemma X3_CancelAsync_dispatch_witness :
  (exists es,
     CancelAsync recording_Client
       (scripted [Body scenario_refresh1; Body (task "cancelled" "T1" 3)]) 4
       scenario_initial []
     = (Return (task "cancelled" "T1" 3), es)
     /\ quiet es
        = Sent (mkRequest "https://127.0.0.1:8463/api//cancel-async" "token=T1")
          :: quiet (snd (__handleToken recording_Client
                           (scripted [Body scenario_refresh1;
                                      Body (task "cancelled" "T1" 3)]) 3
                           scenario_refresh1 None
                           [mkRequest "https://127.0.0.1:8463/api//cancel-async"
                              "token=T1"])))
  /\ (exists es,
        CancelAsync (mkClient "admin" "admin" "127.0.0.1" 8463 false 1000 None 2)
          (scripted [Body (JObj [("statusCode", JStr "cancelled");
                                 ("token", JInt 5); ("statusVersion", JInt 1)])]) 0
          scenario_initial []
        = (Raise TypeError, es)
        /\ quiet es
           = [Sent (mkRequest "https://127.0.0.1:8463/api//cancel-async"
                      "token=T1")]).
Proof.
  split.
  - apply (proj1 (proj1 (proj2 (X3_CancelAsync_dispatch recording_Client
                           (scripted [Body scenario_refresh1;
                                      Body (task "cancelled" "T1" 3)]) 3
                           scenario_initial "T1" [] scenario_refresh1
                           eq_refl eq_refl eq_refl))
                    eq_refl eq_refl) (Return (task "cancelled" "T1" 3))).
    reflexivity.
  - apply (proj1 (proj2 (proj2 (X3_CancelAsync_dispatch
                           (mkClient "admin" "admin" "127.0.0.1" 8463 false 1000
                              None 2)
                           (scripted [Body (JObj [("statusCode", JStr "cancelled");
                                                  ("token", JInt 5);
                                                  ("statusVersion", JInt 1)])]) 0
                           scenario_initial "T1" []
                           (JObj [("statusCode", JStr "cancelled");
                                  ("token", JInt 5); ("statusVersion", JInt 1)])
                           eq_refl eq_refl eq_refl))) TypeError).
    reflexivity.
Defined.

(** ** The callback and the loop *)

(** X4.  Started on a response that is not "running" (and has a string
    token), [__handleToken] makes no request: the callback, if there is one,
    is told of the response once, and the response is returned. *)
Theorem X4_handleToken_nothing_to_poll
    (self : Client) (urlopen : Transport) (fuel : nat) (jsonValues : json)
    (waitTime' : option Z) (rs : list Request) :
  callback_returns self jsonValues ->
  terminal jsonValues ->
  has_string_token jsonValues ->
  exists es,
    __handleToken self urlopen (S fuel) jsonValues waitTime' rs
    = (Return jsonValues, es)
    /\ quiet es = notified self jsonValues
    /\ requests es = [].
Proof.
  intros Hcb (statusCode & Hs & Hdone) (tok & Ht).
  destruct (handleToken_returns self urlopen fuel jsonValues waitTime' rs
              jsonValues [] tok Hcb) as (es & Hrun & Hq).
  { eapply while_running_exit; eassumption. }
  { exact Ht. }
  exists es. split; [exact Hrun|].
  rewrite quiet_nil, app_nil_r in Hq. split; [exact Hq|].
  rewrite (quiet_requests _ _ Hq). unfold notified.
  destruct (callbackStatus self); reflexivity.
Qed.

(** An operation that finished within its first answer. *)
Lemma X4_handleToken_nothing_to_poll_witness :
  exists es,
    __handleToken recording_Client (scripted []) 1 scenario_refresh2 None []
    = (Return scenario_refresh2, es)
    /\ quiet es = [Notified scenario_refresh2]
    /\ requests es = [].
Proof.
  apply (X4_handleToken_nothing_to_poll recording_Client (scripted []) 0
           scenario_refresh2 None []).
  - simpl. split; [discriminate | reflexivity].
  - exists (JStr "completed"). split; reflexivity.
  - exists "T1". reflexivity.
Defined.

(** X5.  A callable without a [__name__] (a [functools.partial], an object
    with [__call__]) cannot serve as callback: [__handleToken] reads its
    [__name__] for a log message, at every log level, and raises
    [AttributeError] before it has called it, sent or printed anything. *)
Theorem X5_callback_without_name
    (self : Client) (urlopen : Transport) (cb : Callback) (fuel : nat)
    (jsonValues : json) (waitTime' : option Z) (rs : list Request) :
  callbackStatus self = Some cb ->
  cb__name__ cb = None ->
  __handleToken self urlopen fuel jsonValues waitTime' rs
  = (Raise AttributeError, []).
Proof.
  intros Hcb Hname.
  assert (Hblock : run_callbackStatus self "first" jsonValues rs
                   = (Raise AttributeError, [])).
  { unfold run_callbackStatus. rewrite Hcb, Hname. reflexivity. }
  destruct fuel; cbn [__handleToken]; apply run_bind_Raise; exact Hblock.
Qed.

Lemma X5_callback_without_name_witness :
  __handleToken
    (mkClient "admin" "admin" "127.0.0.1" 8463 true 1000
       (Some (mkCallback None (fun _ => None))) 4)
    (scripted []) 5 scenario_initial None []
  = (Raise AttributeError, []).
Proof.
  apply (X5_callback_without_name _ (scripted []) (mkCallback None (fun _ => None)));
    reflexivity.
Defined.

Lemma callback_raises_run self cb name which jsonValues e rs :
  callbackStatus self = Some cb ->
  cb__name__ cb = Some name ->
  cb_raises cb jsonValues = Some e ->
  run_callbackStatus self which jsonValues rs
  = (Raise e, callback_events self which jsonValues)
  /\ quiet (callback_events self which jsonValues) = [Notified jsonValues].
Proof.
  intros Hcb Hname Hraise.
  unfold callback_events, emitted, run_callbackStatus.
  rewrite Hcb, Hname. unfold bind, __logprint; cbn. rewrite Hraise.
  destruct (3 <=? logLevel self); cbn; split; reflexivity.
Qed.

(** X6.  An exception of the callback ends [__handleToken] with that
    exception and nothing more is done: raised on the first status, no request
    has been sent; raised on a refreshed status, in whichever turn of the loop,
    the refresh of that turn is the last request. *)
Theorem X6_callback_exception_propagates
    (self : Client) (urlopen : Transport) (cb : Callback) (name : string)
    (e : exn) :
  callbackStatus self = Some cb ->
  cb__name__ cb = Some name ->
  (forall fuel jsonValues waitTime' rs,
     cb_raises cb jsonValues = Some e ->
     exists es,
       __handleToken self urlopen fuel jsonValues waitTime' rs = (Raise e, es)
       /\ quiet es = [Notified jsonValues])
  /\ (forall fuel initial waitTime' rs0 jv rs n statusCode tok refreshed es1,
        callback_returns self initial ->
        polled self urlopen (handleToken_waitTime self waitTime')
          initial rs0 jv rs n ->
        py_getitem jv "statusCode" = Ok statusCode ->
        py_eq_str statusCode "running" = true ->
        py_getitem jv "token" = Ok (JStr tok) ->
        GetStatus self urlopen 1 jv (Some (handleToken_waitTime self waitTime')) rs
        = (Return refreshed, es1) ->
        cb_raises cb refreshed = Some e ->
        exists es es0,
          __handleToken self urlopen (n + 3 + fuel) initial waitTime' rs0
          = (Raise e, es)
          /\ quiet es = (es0 ++ quiet es1 ++ [Notified refreshed])%list).
Proof.
  intros Hcb Hname. split.
  - intros fuel jsonValues waitTime' rs Hraise.
    destruct (callback_raises_run self cb name "first" jsonValues e rs
                Hcb Hname Hraise) as (Hrun & Hq).
    exists (callback_events self "first" jsonValues). split; [|exact Hq].
    destruct fuel; cbn [__handleToken]; apply run_bind_Raise; exact Hrun.
  - intros fuel initial waitTime' rs0 jv rs n statusCode tok refreshed es1
           Hcb0 Hpolled Hs Hrun Ht Hget Hraise.
    set (w := handleToken_waitTime self waitTime') in *.
    destruct (callback_raises_run self cb name "refreshed" refreshed e
                (rs ++ requests es1)%list Hcb Hname Hraise) as (Hblock & Hq).
    assert (Hturn : exists es,
               while_running self urlopen (S (S fuel)) jv w rs = (Raise e, es)
               /\ quiet es = (quiet es1 ++ [Notified refreshed])%list).
    { assert (Hget' : GetStatus self urlopen (S fuel) jv (Some w) rs
                      = (Return refreshed, es1))
        by (rewrite GetStatus_fuel; exact Hget).
      remember (S fuel) as f eqn:Hf. clear Hf.
      cbn [while_running]. eexists; split.
      - run_step. rewrite Hrun. repeat run_step.
        eapply run_bind_Return; [exact Hget'|].
        repeat run_step. apply run_bind_Raise. exact Hblock.
      - quiet_events. rewrite Hq. reflexivity. }
    destruct Hturn as (es2 & Hturn & Hq2).
    destruct (while_running_polled _ _ _ _ _ _ _ _ Hpolled fuel _ _ Hturn)
      as (es3 & es0 & Hloop & Hq3).
    destruct (handleToken_loop_raises self urlopen (n + S (S fuel)) initial
                waitTime' rs0 e es3 Hcb0 Hloop) as (es & Hh & Hq4).
    replace (n + 3 + fuel)%nat with (S (n + S (S fuel)))%nat by lia.
    exists es, (notified self initial ++ es0)%list. split; [exact Hh|].
    rewrite Hq4, Hq3, Hq2, !app_assoc. reflexivity.
Qed.

(** A callback that gives up when it sees version 2. *)
Lemma X6_callback_exception_propagates_witness :
  exists es es0,
    __handleToken
      (mkClient "admin" "admin" "127.0.0.1" 8463 true 1000
         (Some (mkCallback (Some "progress")
                  (fun j => match py_getitem j "statusVersion" with
                            | Ok (JInt 2) => Some (Foreign "Stop")
                            | _ => None
                            end))) 2)
      (scripted [Body scenario_refresh1; Body scenario_refresh2]) 3
      scenario_initial None []
    = (Raise (Foreign "Stop"), es)
    /\ quiet es
       = (es0 ++ [Sent (mkRequest "https://127.0.0.1:8463/api//get-status"
                          "token=T1&millisecondsTimeout=1000&lastKnownStatusVersion=1")]
          ++ [Notified scenario_refresh1])%list.
Proof.
  apply (proj2 (X6_callback_exception_propagates
                  (mkClient "admin" "admin" "127.0.0.1" 8463 true 1000
                     (Some (mkCallback (Some "progress")
                              (fun j => match py_getitem j "statusVersion" with
                                        | Ok (JInt 2) => Some (Foreign "Stop")
                                        | _ => None
                                        end))) 2)
                  (scripted [Body scenario_refresh1; Body scenario_refresh2])
                  _ "progress" (Foreign "Stop") eq_refl eq_refl)
           0%nat scenario_initial None [] scenario_initial [] 0%nat
           (JStr "running") "T1" scenario_refresh1
           [Sent (mkRequest "https://127.0.0.1:8463/api//get-status"
                    "token=T1&millisecondsTimeout=1000&lastKnownStatusVersion=1")]).
  - simpl. split; [discriminate | reflexivity].
  - apply polled_O.
  - reflexivity.
  - reflexivity.
  - reflexivity.
  - reflexivity.
  - reflexivity.
Defined.

(** ** What a run never does *)

Lemma append_assoc (s1 s2 s3 : string) : (s1 ++ s2) ++ s3 = s1 ++ s2 ++ s3.
Proof. induction s1 as [|c s1 IH]; simpl; [reflexivity | rewrite IH; reflexivity]. Qed.

Lemma append_empty_r (s : string) : s ++ EmptyString = s.
Proof. induction s as [|c s IH]; simpl; [reflexivity | rewrite IH; reflexivity]. Qed.

Lemma all_events_ret {A : Type} P (a : A) : all_events P (ret a).
Proof. intros rs. constructor. Qed.

Lemma all_events_raise {A : Type} P e : all_events P (@raise A e).
Proof. intros rs. constructor. Qed.

Lemma all_events_out_of_fuel {A : Type} P : all_events P (@out_of_fuel A).
Proof. intros rs. constructor. Qed.

Lemma all_events_history P : all_events P history.
Proof. intros rs. constructor. Qed.

Lemma all_events_lift {A : Type} P (r : result A) : all_events P (lift r).
Proof. destruct r; intros rs; constructor. Qed.

Lemma all_events_emit P ev : P ev -> all_events P (emit ev).
Proof. intros H rs. repeat constructor. exact H. Qed.

Lemma all_events_bind {A B : Type} P (m : M A) (k : A -> M B) :
  all_events P m -> (forall a, all_events P (k a)) -> all_events P (bind m k).
Proof.
  intros Hm Hk rs. unfold bind. specialize (Hm rs).
  destruct (m rs) as [[a | e | ] es]; cbn [snd] in *; try exact Hm.
  specialize (Hk a (rs ++ requests es)%list).
  destruct (k a _) as [o es']. cbn [snd] in *.
  apply Forall_app. auto.
Qed.

Section Invariant.

Variable self : Client.
Variable urlopen : Transport.
Variable P : Event -> Prop.

Hypothesis P_Printed :
  forall level name args,
    level = 1 \/ level = 3 \/ level = 4 ->
    level <= logLevel self -> assoc Z.eqb level logLevels = Some name ->
    P (Printed name args).

Hypothesis P_Notified : forall j, callbackStatus self <> None -> P (Notified j).

Lemma all_events_logprint level args :
  level = 1 \/ level = 3 \/ level = 4 ->
  all_events P (__logprint self level args).
Proof.
  intros Hlevel. unfold __logprint. destruct (Z.leb_spec level (logLevel self)) as [Hle | _].
  - destruct (assoc Z.eqb level logLevels) as [name|] eqn:Hname.
    + apply all_events_emit. eapply P_Printed; eassumption.
    + apply all_events_raise.
  - apply all_events_ret.
Qed.

(** The steps of the walk through a method body. *)
Ltac walk :=
  repeat first
    [ apply all_events_ret | apply all_events_raise | apply all_events_out_of_fuel
    | apply all_events_history | apply all_events_lift
    | apply all_events_logprint; tauto
    | apply all_events_bind; [|intros ?]
    | match goal with
      | |- all_events _ (if ?b then _ else _) => destruct b
      | |- all_events _ (match ?x with _ => _ end) => destruct x
      end ].

Lemma all_events_hasToken jsonValues : all_events P (__hasToken self jsonValues).
Proof. unfold __hasToken. walk. Qed.

Lemma all_events_callback which jsonValues :
  all_events P (run_callbackStatus self which jsonValues).
Proof.
  unfold run_callbackStatus. destruct (callbackStatus self) as [cb|] eqn:Hcb;
    [|apply all_events_ret].
  apply all_events_bind; [apply all_events_lift|intros name].
  apply all_events_bind; [apply all_events_logprint; tauto|intros _].
  apply all_events_bind; [|intros _; destruct (cb_raises cb jsonValues);
                            [apply all_events_raise | apply all_events_ret]].
  apply all_events_emit. apply P_Notified. congruence.
Qed.

(** A call with automatic handling off, and [GetStatus], which makes one. *)
Lemma all_events_callMethod_no_auto fuel method arguments mode :
  P (Sent (request_of self method arguments mode)) ->
  all_events P (__callMethod self urlopen fuel method arguments mode (Some false)).
Proof.
  intros Hsent. unfold request_of in Hsent.
  destruct fuel; cbn [__callMethod].
  all: do 3 (apply all_events_bind; [apply all_events_logprint; tauto|intros _]).
  all: apply all_events_bind; [apply all_events_history|intros rs0].
  all: apply all_events_bind; [apply all_events_emit; exact Hsent|intros _].
  all: apply all_events_bind; [destruct (urlopen rs0 _); walk|intros jv].
  all: apply all_events_bind; [apply all_events_hasToken|intros [|]]; walk.
Qed.

Lemma all_events_GetStatus fuel jsonValues wt :
  (forall token sv,
     P (Sent (status_request self token (GetStatus_waitTime self wt) sv))) ->
  all_events P (GetStatus self urlopen fuel jsonValues wt).
Proof.
  intros Hsent.
  assert (Hcall : forall f token sv,
             all_events P
               (__callMethod self urlopen f "get-status"
                  [("token", token);
                   ("millisecondsTimeout", JInt (GetStatus_waitTime self wt));
                   ("lastKnownStatusVersion", JStr (py_str sv))]
                  EmptyString (Some false))).
  { intros f token sv. apply all_events_callMethod_no_auto. apply Hsent. }
  destruct fuel; cbn [GetStatus];
    (apply all_events_bind; [apply all_events_hasToken|intros [|]]); walk.
  apply Hcall.
Qed.

Lemma all_events_while_running fuel w :
  (forall token sv,
     P (Sent (status_request self token (GetStatus_waitTime self (Some w)) sv))) ->
  forall jsonValues, all_events P (while_running self urlopen fuel jsonValues w).
Proof.
  intros P_status.
  induction fuel as [|fuel IH]; intros jsonValues; cbn [while_running].
  - walk.
  - apply all_events_bind; [apply all_events_lift|intros statusCode].
    destruct (py_eq_str statusCode "running"); [|apply all_events_ret].
    do 2 (apply all_events_bind; [apply all_events_lift|intros ?]).
    apply all_events_bind; [apply all_events_logprint; tauto|intros _].
    apply all_events_bind;
      [exact (all_events_GetStatus fuel jsonValues (Some w) P_status)
      |intros refreshed].
    apply all_events_bind; [apply all_events_logprint; tauto|intros _].
    apply all_events_bind; [apply all_events_callback|intros _].
    exact (IH refreshed).
Qed.

Lemma all_events_handleToken fuel jsonValues wt :
  (forall token sv,
     P (Sent (status_request self token
                (GetStatus_waitTime self (Some (handleToken_waitTime self wt)))
                sv))) ->
  all_events P (__handleToken self urlopen fuel jsonValues wt).
Proof.
  intros P_status.
  destruct fuel; cbn [__handleToken];
    (apply all_events_bind; [apply all_events_callback|intros _]).
  - walk.
  - apply all_events_bind;
      [exact (all_events_while_running fuel _ P_status jsonValues)|intros final].
    walk.
Qed.

Lemma all_events_callMethod fuel method arguments mode aht :
  P (Sent (request_of self method arguments mode)) ->
  (forall token sv,
     P (Sent (status_request self token
                (GetStatus_waitTime self (Some (waitTime self))) sv))) ->
  all_events P (__callMethod self urlopen fuel method arguments mode aht).
Proof.
  intros Hsent P_status. unfold request_of in Hsent.
  destruct fuel; cbn [__callMethod].
  all: do 3 (apply all_events_bind; [apply all_events_logprint; tauto|intros _]).
  all: apply all_events_bind; [apply all_events_history|intros rs0].
  all: apply all_events_bind; [apply all_events_emit; exact Hsent|intros _].
  all: apply all_events_bind; [destruct (urlopen rs0 _); walk|intros jv].
  all: apply all_events_bind; [apply all_events_hasToken|intros [|]]; walk.
  exact (all_events_handleToken fuel jv None P_status).
Qed.

End Invariant.

Lemma event_within_Printed self level name args :
  level = 1 \/ level = 3 \/ level = 4 ->
  level <= logLevel self -> assoc Z.eqb level logLevels = Some name ->
  event_within self (Printed name args).
Proof. intros. exists level. auto. Qed.

Lemma event_within_Notified self j :
  callbackStatus self <> None -> event_within self (Notified j).
Proof. intros H. exact H. Qed.

Lemma event_within_Sent self method arguments mode :
  event_within self (Sent (request_of self method arguments mode)).
Proof.
  exists mode, method. unfold request_of, api_url, realm_uri, realm.
  cbn [url fst snd]. rewrite !append_assoc. reflexivity.
Qed.

Lemma event_within_status self token w sv :
  event_within self (Sent (status_request self token w sv)).
Proof. apply (event_within_Sent self "get-status" _ EmptyString). Qed.

Lemma events_within_client self urlopen fuel method arguments mode aht
    jsonValues waitTime' :
  all_events (event_within self)
    (__callMethod self urlopen fuel method arguments mode aht)
  /\ all_events (event_within self)
       (__handleToken self urlopen fuel jsonValues waitTime')
  /\ all_events (event_within self)
       (GetStatus self urlopen fuel jsonValues waitTime')
  /\ all_events (event_within self) (CancelAsync self urlopen fuel jsonValues).
Proof.
  pose proof (event_within_Printed self) as HP.
  pose proof (event_within_Notified self) as HN.
  split; [|split; [|split]].
  - apply all_events_callMethod; auto using event_within_Sent, event_within_status.
  - apply all_events_handleToken; auto using event_within_status.
  - apply all_events_GetStatus; auto using event_within_status.
  - unfold CancelAsync.
    apply all_events_bind; [apply all_events_hasToken; assumption|intros [|]].
    + apply all_events_bind; [apply all_events_lift|intros token].
      apply all_events_callMethod;
        auto using event_within_Sent, event_within_status.
    + apply all_events_bind;
        [apply all_events_logprint; [assumption | tauto] | intros _].
      apply all_events_raise.
Qed.

(** X7.  Whatever the remote side answers and however long a task runs,
    every request of a client goes to an address under the URI that its
    [__init__] registered its user name and password for,
    [https://host:port], namely to [/api/<mode>/<method>] there; every line it
    prints is an ERROR, INFO or DEBUG line that its log level admits; and it
    calls a callback only if it was given a callable.  This holds for a
    top-level call, for the token handler, for [GetStatus] and for
    [CancelAsync]. *)
Theorem X7_events_within_client
    (self : Client) (urlopen : Transport) (fuel : nat) (method : string)
    (arguments : list (string * json)) (mode : string) (aht : option bool)
    (jsonValues : json) (waitTime' : option Z) :
  all_events (event_within self)
    (__callMethod self urlopen fuel method arguments mode aht)
  /\ all_events (event_within self)
       (__handleToken self urlopen fuel jsonValues waitTime')
  /\ all_events (event_within self)
       (GetStatus self urlopen fuel jsonValues waitTime')
  /\ all_events (event_within self) (CancelAsync self urlopen fuel jsonValues).
Proof. apply events_within_client. Qed.

(** X8.  The token handler sends nothing but status requests, and all of
    them with one wait time: the one [GetStatus] makes of the handler's, which
    for a handler started by a top-level call is the client's [waitTime]. *)
Theorem X8_handler_sends_status_requests_only
    (self : Client) (urlopen : Transport) (fuel : nat) (jsonValues : json)
    (waitTime' : option Z) (rs : list Request) :
  let w := GetStatus_waitTime self (Some (handleToken_waitTime self waitTime')) in
  Forall (fun r => exists token sv, r = status_request self token w sv)
    (requests (snd (__handleToken self urlopen fuel jsonValues waitTime' rs)))
  /\ (waitTime' = None -> w = waitTime self).
Proof.
  intros w. split.
  - assert (Hall : all_events (status_poll self w)
                     (__handleToken self urlopen fuel jsonValues waitTime')).
    { apply all_events_handleToken.
      - intros; exact I.
      - intros; exact I.
      - intros token sv. exists token, sv. reflexivity. }
    specialize (Hall rs).
    induction Hall as [|ev es Hev _ IH]; [constructor|].
    destruct ev as [r | name args | j]; cbn [requests flat_map app];
      [constructor; [exact Hev | exact IH] | exact IH | exact IH].
  - intros ->. apply GetStatus_waitTime_default.
Qed.

Lemma printed_of_events_within self es :
  Forall (event_within self) es ->
  (logLevel self < 1 -> quiet es = es)
  /\ (logLevel self < 3 ->
      forall name args, In (Printed name args) es -> name = "ERROR").
Proof.
  intros Hall. split.
  - intros Hlow. induction Hall as [|ev es Hev _ IH]; [reflexivity|].
    destruct ev as [r | name args | j]; cbn [quiet filter]; fold (quiet es);
      try (rewrite IH; reflexivity).
    destruct Hev as (level & Hlevel & Hle & _). lia.
  - intros Hlow name args Hin.
    rewrite Forall_forall in Hall. specialize (Hall _ Hin).
    destruct Hall as (level & Hlevel & Hle & Hname).
    destruct Hlevel as [-> | [-> | ->]]; try lia.
    cbn in Hname. congruence.
Qed.

(** X9.  What is printed.  At a log level below 1 a client prints nothing,
    whatever happens.  Below 3, which includes the default 2, every line it
    prints is an ERROR line: level 2, WARNING, is used by no message.  This
    holds for a top-level call with all the polling it may do, for
    [GetStatus] and for [CancelAsync]. *)
Theorem X9_printed_lines
    (self : Client) (urlopen : Transport) (fuel : nat) (method : string)
    (arguments : list (string * json)) (mode : string) (aht : option bool)
    (jsonValues : json) (waitTime' : option Z) (rs : list Request) :
  let only_errors (es : list Event) :=
    (logLevel self < 1 -> quiet es = es)
    /\ (logLevel self < 3 ->
        forall name args, In (Printed name args) es -> name = "ERROR") in
  only_errors (snd (__callMethod self urlopen fuel method arguments mode aht rs))
  /\ only_errors (snd (GetStatus self urlopen fuel jsonValues waitTime' rs))
  /\ only_errors (snd (CancelAsync self urlopen fuel jsonValues rs)).
Proof.
  intros only_errors. subst only_errors. cbv beta.
  destruct (events_within_client self urlopen fuel method arguments mode aht
              jsonValues waitTime') as (H1 & _ & H3 & H4).
  split; [|split]; apply printed_of_events_within; [apply H1 | apply H3 | apply H4].
Qed.

(** ** Callbacks and requests of a handler that returns *)

Lemma lift_Return_events {A : Type} (r : result A) rs a es :
  lift r rs = (Return a, es) -> es = [].
Proof.
  destruct r as [a' | e]; unfold lift, ret, raise; intros H;
    [injection H as _ <-; reflexivity | discriminate].
Qed.

Lemma logprint_Return_events self level args rs a es :
  level = 1 \/ level = 3 \/ level = 4 ->
  __logprint self level args rs = (Return a, es) ->
  requests es = [] /\ notifications es = [].
Proof.
  intros Hl H. rewrite (logprint_run self level args rs Hl) in H.
  injection H as _ <-.
  split; [apply silent_requests | apply silent_notifications];
    apply log_lines_silent.
Qed.

Lemma callback_Return_events self cb which jsonValues rs a es :
  callbackStatus self = Some cb ->
  run_callbackStatus self which jsonValues rs = (Return a, es) ->
  requests es = [] /\ notifications es = [jsonValues].
Proof.
  intros Hcb. unfold run_callbackStatus. rewrite Hcb.
  destruct (cb__name__ cb) as [name|]; [|discriminate].
  unfold bind, __logprint; cbn.
  destruct (3 <=? logLevel self); cbn;
    destruct (cb_raises cb jsonValues); cbn; intros H;
    try discriminate; injection H as _ <-; split; reflexivity.
Qed.

(** A call with automatic handling off does one thing to the outside world,
    however it ends. *)
Lemma callMethod_no_auto_quiet self urlopen fuel method arguments mode rs :
  quiet (snd (__callMethod self urlopen fuel method arguments mode (Some false) rs))
  = [Sent (request_of self method arguments mode)].
Proof.
  pose proof (callMethod_no_body self urlopen fuel method arguments mode
                (Some false) rs) as Hfail.
  destruct (urlopen rs (request_of self method arguments mode))
    as [decoded | e | code msg fpm | e] eqn:Hreply.
  - destruct (token_check_cases decoded)
      as [Hc | [Hc | (members & t & v & Hc & _)]].
    + destruct (callMethod_unhandled self urlopen fuel method arguments mode
                  (Some false) rs decoded Hreply (or_introl Hc))
        as (es & -> & Hq). exact Hq.
    + destruct (callMethod_check_raises self urlopen fuel method arguments mode
                  (Some false) rs decoded TypeError Hreply Hc)
        as (es & -> & Hq). exact Hq.
    + destruct (callMethod_unhandled self urlopen fuel method arguments mode
                  (Some false) rs decoded Hreply (or_intror (conj Hc eq_refl)))
        as (es & -> & Hq). exact Hq.
  - destruct Hfail as (es & -> & Hq). exact Hq.
  - destruct Hfail as (es & -> & Hq). exact Hq.
  - destruct Hfail as (es & -> & Hq). exact Hq.
Qed.

(** A refresh that returns has sent one request and called nothing. *)
Lemma GetStatus_Return_events self urlopen fuel jsonValues wt rs refreshed es :
  GetStatus self urlopen fuel jsonValues wt rs = (Return refreshed, es) ->
  exists q, quiet es = [Sent q].
Proof.
  intros H.
  destruct (token_check_cases jsonValues)
    as [Hc | [Hc | (members & tok & sv & Hc & -> & Ht & Hs)]].
  - destruct (GetStatus_no_token self urlopen fuel jsonValues wt rs Hc)
      as (es' & H' & _). congruence.
  - destruct (GetStatus_check_raises self urlopen fuel jsonValues wt rs _ Hc)
      as (es' & H' & _). congruence.
  - destruct fuel as [|fuel].
    + cbn [GetStatus] in H.
      apply bind_Return_inv in H as (b & ? & ? & Hh & H & ->).
      rewrite hasToken_run, Hc in Hh. injection Hh as <- _.
      apply bind_Return_inv in H as (? & ? & ? & _ & H & ->).
      apply bind_Return_inv in H as (? & ? & ? & _ & H & ->).
      discriminate.
    + destruct (__callMethod self urlopen fuel "get-status"
                  [("token", JStr tok);
                   ("millisecondsTimeout", JInt (GetStatus_waitTime self wt));
                   ("lastKnownStatusVersion", JStr (py_str sv))]
                  EmptyString (Some false) rs) as [o es'] eqn:Hcall.
      assert (Ht' : py_getitem (JObj members) "token" = Ok (JStr tok))
        by (unfold py_getitem; rewrite Ht; reflexivity).
      assert (Hs' : py_getitem (JObj members) "statusVersion" = Ok sv)
        by (unfold py_getitem; rewrite Hs; reflexivity).
      rewrite (GetStatus_calls self urlopen fuel (JObj members) tok sv wt rs o es'
                 Ht' Hs' Hcall) in H.
      injection H as -> <-.
      eexists. rewrite quiet_app, quiet_hasToken_lines, app_nil_l.
      pose proof (callMethod_no_auto_quiet self urlopen fuel "get-status"
                    [("token", JStr tok);
                     ("millisecondsTimeout", JInt (GetStatus_waitTime self wt));
                     ("lastKnownStatusVersion", JStr (py_str sv))]
                    EmptyString rs) as Hq.
      rewrite Hcall in Hq. exact Hq.
Qed.

Lemma last_cons_default {A : Type} (a d : A) (l : list A) :
  last (a :: l) d = last l a.
Proof.
  revert a d. induction l as [|b l IH]; intros a d; [reflexivity|].
  change (last (a :: b :: l) d) with (last (b :: l) d).
  rewrite (IH b d), (IH b a). reflexivity.
Qed.

Section Counting.

Variable self : Client.
Variable urlopen : Transport.
Variable cb : Callback.
Hypothesis Hcb : callbackStatus self = Some cb.

Lemma while_running_Return_counts fuel :
  forall jsonValues wt rs final es,
    while_running self urlopen fuel jsonValues wt rs = (Return final, es) ->
    List.length (notifications es) = List.length (requests es)
    /\ last (notifications es) jsonValues = final.
Proof.
  induction fuel as [|fuel IH]; intros jv wt rs final es H;
    cbn [while_running] in H;
    apply bind_Return_inv in H as (statusCode & es1 & es2 & Hget & Hk & ->);
    apply lift_Return_events in Hget as ->;
    destruct (py_eq_str statusCode "running") eqn:Hrun.
  - apply bind_Return_inv in Hk as (tok & ? & ? & _ & Hk & ->).
    apply bind_Return_inv in Hk as (msg & ? & ? & _ & Hk & ->).
    apply bind_Return_inv in Hk as (? & ? & ? & _ & Hk & ->).
    discriminate.
  - injection Hk as <- <-. split; reflexivity.
  - apply bind_Return_inv in Hk as (tok & e1 & ? & H1 & Hk & ->).
    apply lift_Return_events in H1 as ->.
    apply bind_Return_inv in Hk as (msg & e2 & ? & H2 & Hk & ->).
    apply lift_Return_events in H2 as ->.
    apply bind_Return_inv in Hk as (? & e3 & ? & H3 & Hk & ->).
    apply logprint_Return_events in H3 as (Hr3 & Hn3); [|tauto].
    apply bind_Return_inv in Hk as (refreshed & e4 & ? & H4 & Hk & ->).
    apply GetStatus_Return_events in H4 as (q & Hq4).
    apply bind_Return_inv in Hk as (? & e5 & ? & H5 & Hk & ->).
    apply logprint_Return_events in H5 as (Hr5 & Hn5); [|tauto].
    apply bind_Return_inv in Hk as (? & e6 & e7 & H6 & Hk & ->).
    apply (callback_Return_events self cb) in H6 as (Hr6 & Hn6); [|exact Hcb].
    apply IH in Hk as (Hlen & Hlast).
    assert (Hr4 : requests e4 = [q]) by (rewrite (quiet_requests _ _ Hq4); reflexivity).
    assert (Hn4 : notifications e4 = [])
      by (rewrite <- notifications_quiet, Hq4; reflexivity).
    rewrite !requests_app, !notifications_app.
    rewrite Hr3, Hn3, Hr4, Hn4, Hr5, Hn5, Hr6, Hn6.
    cbn [requests notifications flat_map app List.length].
    split; [rewrite Hlen; reflexivity|].
    rewrite last_cons_default. exact Hlast.
  - injection Hk as <- <-. split; reflexivity.
Qed.

Lemma handleToken_Return_counts fuel jsonValues wt rs final es :
  __handleToken self urlopen fuel jsonValues wt rs = (Return final, es) ->
  List.length (notifications es) = S (List.length (requests es))
  /\ hd_error (notifications es) = Some jsonValues
  /\ last (notifications es) jsonValues = final.
Proof.
  intros H. destruct fuel as [|fuel]; cbn [__handleToken] in H;
    apply bind_Return_inv in H as (? & e1 & ? & H1 & Hk & ->);
    apply bind_Return_inv in Hk as (r & e2 & ? & Hloop & Hk & ->);
    [discriminate|].
  apply (callback_Return_events self cb) in H1 as (Hr1 & Hn1); [|exact Hcb].
  apply while_running_Return_counts in Hloop as (Hlen & Hlast).
  apply bind_Return_inv in Hk as (tok & e3 & ? & H3 & Hk & ->).
  apply lift_Return_events in H3 as ->.
  apply bind_Return_inv in Hk as (msg & e4 & ? & H4 & Hk & ->).
  apply lift_Return_events in H4 as ->.
  apply bind_Return_inv in Hk as (? & e5 & ? & H5 & Hk & ->).
  apply logprint_Return_events in H5 as (Hr5 & Hn5); [|tauto].
  injection Hk as <- <-.
  rewrite !requests_app, !notifications_app.
  rewrite Hr1, Hn1, Hr5, Hn5.
  cbn [requests notifications flat_map app List.length hd_error].
  rewrite !app_nil_r.
  split; [rewrite Hlen; reflexivity|]. split; [reflexivity|].
  rewrite last_cons_default. exact Hlast.
Qed.

End Counting.

(** X10.  Whenever the token handler of a client with a callback returns,
    it has called the callback once more often than it has sent requests:
    first on the response it was started on, last on the response it returns,
    and once after every request in between. *)
Theorem X10_callback_after_every_refresh
    (self : Client) (urlopen : Transport) (cb : Callback) (fuel : nat)
    (jsonValues : json) (waitTime' : option Z) (rs : list Request)
    (final : json) (es : list Event) :
  callbackStatus self = Some cb ->
  __handleToken self urlopen fuel jsonValues waitTime' rs = (Return final, es) ->
  List.length (notifications es) = S (List.length (requests es))
  /\ hd_error (notifications es) = Some jsonValues
  /\ last (notifications es) jsonValues = final.
Proof. intros Hcb. apply (handleToken_Return_counts self urlopen cb Hcb). Qed.

(** The scenario of the spec: three calls of the callback, two requests. *)
Lemma X10_callback_after_every_refresh_witness :
  List.length
    (notifications
       (snd (__handleToken recording_Client
               (scripted [Body scenario_refresh1; Body scenario_refresh2]) 4
               scenario_initial None [])))
  = S (List.length
         (requests
            (snd (__handleToken recording_Client
                    (scripted [Body scenario_refresh1; Body scenario_refresh2]) 4
                    scenario_initial None []))))
  /\ hd_error
       (notifications
          (snd (__handleToken recording_Client
                  (scripted [Body scenario_refresh1; Body scenario_refresh2]) 4
                  scenario_initial None [])))
     = Some scenario_initial
  /\ last
       (notifications
          (snd (__handleToken recording_Client
                  (scripted [Body scenario_refresh1; Body scenario_refresh2]) 4
                  scenario_initial None [])))
       scenario_initial
     = scenario_refresh2.
Proof.
  apply (X10_callback_after_every_refresh recording_Client
           (scripted [Body scenario_refresh1; Body scenario_refresh2])
           recorder 4 scenario_initial None [] scenario_refresh2).
  - reflexivity.
  - reflexivity.
Defined.

(** ** Requests of a refresh and of a top-level call *)

Lemma requests_of_all_events (Q : Request -> Prop) es :
  Forall (fun ev => match ev with Sent r => Q r | _ => True end) es ->
  Forall Q (requests es).
Proof.
  induction 1 as [|ev es Hev _ IH]; [constructor|].
  destruct ev as [r | name args | j]; cbn [requests flat_map app];
    [constructor; [exact Hev | exact IH] | exact IH | exact IH].
Qed.

(** X16.  [GetStatus] is a single step however it ends: it sends its status
    request or, when the response at hand has no token or the check raises,
    nothing; it never sends a second request and never calls the callback. *)
Theorem X16_GetStatus_single_step
    (self : Client) (urlopen : Transport) (fuel : nat) (jsonValues : json)
    (waitTime' : option Z) (rs : list Request) :
  let es := snd (GetStatus self urlopen fuel jsonValues waitTime' rs) in
  (List.length (requests es) <= 1)%nat
  /\ notifications es = []
  /\ (outcome (__hasToken self jsonValues) rs <> Return true -> requests es = []).
Proof.
  intros es. subst es. rewrite hasToken_outcome.
  assert (Hsilent : forall es, silent es ->
             (List.length (requests es) <= 1)%nat /\ notifications es = []
             /\ requests es = []).
  { intros es Hs. rewrite (silent_requests _ Hs), (silent_notifications _ Hs).
    cbn. auto. }
  destruct (token_check_cases jsonValues)
    as [Hc | [Hc | (members & tok & sv & Hc & -> & Ht & Hs)]].
  - destruct (GetStatus_no_token self urlopen fuel jsonValues waitTime' rs Hc)
      as (es & -> & Hsil). cbn [snd].
    destruct (Hsilent es Hsil) as (H1 & H2 & H3). auto.
  - destruct (GetStatus_check_raises self urlopen fuel jsonValues waitTime' rs _ Hc)
      as (es & -> & Hsil). cbn [snd].
    destruct (Hsilent es Hsil) as (H1 & H2 & H3). auto.
  - assert (Ht' : py_getitem (JObj members) "token" = Ok (JStr tok))
      by (unfold py_getitem; rewrite Ht; reflexivity).
    assert (Hs' : py_getitem (JObj members) "statusVersion" = Ok sv)
      by (unfold py_getitem; rewrite Hs; reflexivity).
    destruct fuel as [|fuel].
    + assert (Hrun : GetStatus self urlopen 0 (JObj members) waitTime' rs
                     = (OutOfFuel, (hasToken_lines self (JObj members) ++ [])%list)).
      { cbn [GetStatus]. repeat run_step. }
      rewrite Hrun. cbn [snd].
      destruct (Hsilent _ (silent_app _ _
                             (hasToken_lines_silent self (JObj members)) silent_nil))
        as (H1 & H2 & H3). auto.
    + destruct (__callMethod self urlopen fuel "get-status"
                  [("token", JStr tok);
                   ("millisecondsTimeout", JInt (GetStatus_waitTime self waitTime'));
                   ("lastKnownStatusVersion", JStr (py_str sv))]
                  EmptyString (Some false) rs) as [o es'] eqn:Hcall.
      rewrite (GetStatus_calls self urlopen fuel (JObj members) tok sv waitTime' rs
                 o es' Ht' Hs' Hcall). cbn [snd].
      pose proof (callMethod_no_auto_quiet self urlopen fuel "get-status"
                    [("token", JStr tok);
                     ("millisecondsTimeout", JInt (GetStatus_waitTime self waitTime'));
                     ("lastKnownStatusVersion", JStr (py_str sv))]
                    EmptyString rs) as Hq.
      rewrite Hcall in Hq. cbn [snd] in Hq.
      assert (Hq' : quiet (hasToken_lines self (JObj members) ++ es')%list
                    = [Sent (request_of self "get-status"
                               [("token", JStr tok);
                                ("millisecondsTimeout",
                                 JInt (GetStatus_waitTime self waitTime'));
                                ("lastKnownStatusVersion", JStr (py_str sv))]
                               EmptyString)]).
      { rewrite quiet_app, quiet_hasToken_lines. exact Hq. }
      rewrite (quiet_requests _ _ Hq'), <- notifications_quiet, Hq'.
      cbn. split; [lia|]. split; [reflexivity|]. congruence.
Qed.

(** X17.  A top-level call sends its own request and, apart from it, only
    status requests with the client's wait time: polling never invokes
    another operation. *)
Theorem X17_call_sends_own_and_status_requests
    (self : Client) (urlopen : Transport) (fuel : nat) (method : string)
    (arguments : list (string * json)) (mode : string) (aht : option bool)
    (rs : list Request) :
  Forall (fun r =>
            r = request_of self method arguments mode
            \/ exists token sv, r = status_request self token (waitTime self) sv)
    (requests (snd (__callMethod self urlopen fuel method arguments mode aht rs))).
Proof.
  apply requests_of_all_events.
  apply (all_events_callMethod self urlopen
           (fun ev => match ev with
                      | Sent r =>
                          r = request_of self method arguments mode
                          \/ exists token sv,
                               r = status_request self token (waitTime self) sv
                      | _ => True
                      end)).
  - intros; exact I.
  - intros; exact I.
  - left. reflexivity.
  - intros token sv. right. exists token, sv.
    rewrite GetStatus_waitTime_default. reflexivity.
Qed.

(** ** The wrapped operations that convert an argument *)

Lemma marshal_two k1 v1 k2 v2 :
  k2 <> k1 ->
  marshal [(k1, v1); (k2, v2)]
  = ((if truthy v1 then [(k1, v1)] else [])
     ++ (if truthy v2 then [(k2, v2)] else []))%list.
Proof.
  intros Hne. rewrite marshal_filter.
  - cbn [filter snd]. destruct (truthy v1), (truthy v2); reflexivity.
  - cbn. repeat constructor; cbn; intuition congruence.
Qed.

Lemma marshal_one k v :
  marshal [(k, v)] = if truthy v then [(k, v)] else [].
Proof.
  rewrite marshal_filter; [reflexivity|].
  cbn. repeat constructor. intros [].
Qed.

(** X11.  The raw flag of the profile operations of the server client.
    [CreateProfile] and [RunTemporaryProfile] turn it into the text "true" or
    "false" and so always send it, after [properties] if that is given.
    [GetProfiles] passes it as it is: a true value is sent as Python prints
    it ([raw=True] for [True]), and a false one is not sent at all. *)
Theorem X11_raw_flag
    (self : Client) (urlopen : Transport) (fuel : nat) (properties raw : json)
    (aht : option bool) (rs : list Request) :
  let sent_properties :=
    if truthy properties
    then "properties=" ++ quote_plus (py_str properties) ++ "&"
    else EmptyString in
  let sent_raw := if truthy raw then "raw=true" else "raw=false" in
  (exists rest,
     requests (emitted (Server.CreateProfile self urlopen fuel properties raw aht) rs)
     = mkRequest (api_url self "invoke" "CreateProfile")
         (sent_properties ++ sent_raw) :: rest)
  /\ (exists rest,
        requests (emitted (Server.RunTemporaryProfile self urlopen fuel
                             properties raw aht) rs)
        = mkRequest (api_url self "invoke" "RunTemporaryProfile")
            (sent_properties ++ sent_raw) :: rest)
  /\ (exists rest,
        requests (emitted (Server.GetProfiles self urlopen fuel raw aht) rs)
        = mkRequest (api_url self "invoke" "GetProfiles")
            (if truthy raw then "raw=" ++ quote_plus (py_str raw)
             else EmptyString) :: rest).
Proof.
  intros sent_properties sent_raw. subst sent_properties sent_raw.
  assert (Hdata : forall method,
             request_of self method
               [("properties", properties); ("raw", true_or_false raw)] "invoke"
             = mkRequest (api_url self "invoke" method)
                 ((if truthy properties
                   then "properties=" ++ quote_plus (py_str properties) ++ "&"
                   else EmptyString)
                  ++ (if truthy raw then "raw=true" else "raw=false"))).
  { intros method. unfold request_of. f_equal.
    rewrite marshal_two by discriminate. unfold true_or_false.
    destruct (truthy properties), (truthy raw); cbn;
      rewrite ?append_assoc; reflexivity. }
  split; [|split].
  - unfold Server.CreateProfile. rewrite <- Hdata.
    apply callMethod_first_request.
  - unfold Server.RunTemporaryProfile. rewrite <- Hdata.
    apply callMethod_first_request.
  - unfold Server.GetProfiles.
    destruct (callMethod_first_request self urlopen fuel "GetProfiles"
                [("raw", raw)] "invoke" aht rs) as (rest & Hreq).
    exists rest. rewrite Hreq. unfold request_of. rewrite marshal_one.
    destruct (truthy raw); cbn; rewrite ?append_empty_r; reflexivity.
Qed.

(** X12.  The dry-run flag.  The server client turns it into "true" or
    "false" by its truth value and always sends it: nothing given means
    [dryRun=false], and any non-empty string, "false" too, means
    [dryRun=true].  The SPE client sends [dryRun=true] for "True", "true",
    [True] and 1, sends any other true value as it is, and sends no [dryRun]
    at all for a false one. *)
Theorem X12_dry_run_flag
    (urlopen : Transport) (fuel : nat) (instanceID dryRun : json)
    (aht : option bool) (rs : list Request) :
  (forall self,
     exists rest,
       requests (emitted (Server.SyncUsersWithDirectoryServices self urlopen fuel
                            dryRun aht) rs)
       = mkRequest (api_url self "invoke" "SyncUsersWithDirectoryServices")
           (if truthy dryRun then "dryRun=true" else "dryRun=false") :: rest)
  /\ (forall s, s <> EmptyString -> truthy (JStr s) = true)
  /\ (forall self,
        exists rest,
          requests (emitted (Spe.SyncUsersWithDirectoryServices self urlopen fuel
                               instanceID dryRun aht) rs)
          = mkRequest (api_url self "invoke" "SyncUsersWithDirectoryServices")
              (urlencode
                 ((if truthy instanceID then [("instanceID", instanceID)] else [])
                  ++ (if in_true_values dryRun then [("dryRun", JStr "true")]
                      else if truthy dryRun then [("dryRun", dryRun)]
                      else []))%list) :: rest).
Proof.
  split; [|split].
  - intros self. unfold Server.SyncUsersWithDirectoryServices.
    destruct (callMethod_first_request self urlopen fuel
                "SyncUsersWithDirectoryServices"
                [("dryRun", true_or_false dryRun)] "invoke" aht rs)
      as (rest & Hreq).
    exists rest. rewrite Hreq. unfold request_of. rewrite marshal_one.
    unfold true_or_false. destruct (truthy dryRun); reflexivity.
  - intros s Hs. unfold truthy.
    destruct (String.eqb_spec s EmptyString); [contradiction | reflexivity].
  - intros self. unfold Spe.SyncUsersWithDirectoryServices.
    destruct (callMethod_first_request self urlopen fuel
                "SyncUsersWithDirectoryServices"
                [("instanceID", instanceID);
                 ("dryRun", if in_true_values dryRun then JStr "true" else dryRun)]
                "invoke" aht rs) as (rest & Hreq).
    exists rest. rewrite Hreq. unfold request_of.
    rewrite marshal_two by discriminate.
    destruct (in_true_values dryRun); reflexivity.
Qed.

Lemma py_join_items_strings l : py_join_items (map JStr l) = Ok l.
Proof. induction l as [|s l IH]; cbn; [reflexivity | rewrite IH; reflexivity]. Qed.

Lemma py_join_items_not_string items :
  Exists (fun x => forall s, x <> JStr s) items ->
  py_join_items items = Err TypeError.
Proof.
  induction 1 as [x items Hx | x items _ IH].
  - destruct x; try reflexivity. exfalso. exact (Hx s eq_refl).
  - destruct x; try reflexivity. cbn. rewrite IH. reflexivity.
Qed.

(** A list of strings is as good as the strings joined by commas. *)
Lemma join_list_argument_strings l :
  join_list_argument (JArr (map JStr l)) = join_list_argument (JStr (join "," l)).
Proof.
  unfold join_list_argument, py_join. rewrite py_join_items_strings. reflexivity.
Qed.

Lemma join_list_argument_not_string items :
  Exists (fun x => forall s, x <> JStr s) items ->
  join_list_argument (JArr items) = raise TypeError.
Proof.
  intros H. unfold join_list_argument, py_join.
  rewrite (py_join_items_not_string items H). reflexivity.
Qed.

(** X13.  The server client's operations that take a list: e-mail addresses,
    POP3 user names, privileges.  Given a list of strings they do exactly what
    they do given the strings joined by commas; so an empty list is an empty
    string, which is not sent.  Given a list with an item that is not a
    string they raise [TypeError] and send nothing. *)
Theorem X13_server_list_arguments
    (self : Client) (urlopen : Transport) (fuel : nat) (userName folder : json)
    (aht : option bool) (rs : list Request) :
  (forall l : list string,
     let listed := JArr (map JStr l) in
     let joined := JStr (join "," l) in
     Server.SetUserEmailAddresses self urlopen fuel userName listed aht rs
     = Server.SetUserEmailAddresses self urlopen fuel userName joined aht rs
     /\ Server.SetUserPop3UserNames self urlopen fuel userName listed aht rs
        = Server.SetUserPop3UserNames self urlopen fuel userName joined aht rs
     /\ Server.SetUserPrivileges self urlopen fuel userName listed aht rs
        = Server.SetUserPrivileges self urlopen fuel userName joined aht rs
     /\ Server.SetUserPrivilegesOnFolder self urlopen fuel userName folder listed
          aht rs
        = Server.SetUserPrivilegesOnFolder self urlopen fuel userName folder joined
            aht rs)
  /\ (forall items,
        Exists (fun x => forall s, x <> JStr s) items ->
        Server.SetUserEmailAddresses self urlopen fuel userName (JArr items) aht rs
        = (Raise TypeError, [])
        /\ Server.SetUserPop3UserNames self urlopen fuel userName (JArr items) aht rs
           = (Raise TypeError, [])
        /\ Server.SetUserPrivileges self urlopen fuel userName (JArr items) aht rs
           = (Raise TypeError, [])
        /\ Server.SetUserPrivilegesOnFolder self urlopen fuel userName folder
             (JArr items) aht rs
           = (Raise TypeError, [])).
Proof.
  split.
  - intros l listed joined. subst listed joined.
    unfold Server.SetUserEmailAddresses, Server.SetUserPop3UserNames,
      Server.SetUserPrivileges, Server.SetUserPrivilegesOnFolder.
    rewrite join_list_argument_strings. repeat split.
  - intros items Hbad.
    unfold Server.SetUserEmailAddresses, Server.SetUserPop3UserNames,
      Server.SetUserPrivileges, Server.SetUserPrivilegesOnFolder.
    rewrite (join_list_argument_not_string items Hbad). repeat split.
Qed.

(** [SetUserPrivileges("jd", ["login", 7])]. *)
Lemma X13_server_list_arguments_witness :
  Server.SetUserPrivileges server_Client (scripted []) 0 (JStr "jd")
    (JArr [JStr "login"; JInt 7]) None []
  = (Raise TypeError, []).
Proof.
  apply (proj2 (X13_server_list_arguments server_Client (scripted []) 0
                  (JStr "jd") JNull None [])
           [JStr "login"; JInt 7]).
  right. left. discriminate.
Defined.

(** X14.  The same for the SPE client's [CreateUser], [SetUserEmailAddresses],
    [SetUserPop3UserNames], [SetUserPrivileges] and
    [SetUserPrivilegesOnFolder]. *)
Theorem X14_spe_list_arguments
    (self : Client) (urlopen : Transport) (fuel : nat)
    (instanceID userName folder fullName distinguishedName authentication
       password' : json)
    (aht : option bool) (rs : list Request) :
  (forall l : list string,
     let listed := JArr (map JStr l) in
     let joined := JStr (join "," l) in
     Spe.CreateUser self urlopen fuel instanceID userName listed fullName
       distinguishedName authentication password' aht rs
     = Spe.CreateUser self urlopen fuel instanceID userName joined fullName
         distinguishedName authentication password' aht rs
     /\ Spe.SetUserEmailAddresses self urlopen fuel instanceID userName listed aht rs
        = Spe.SetUserEmailAddresses self urlopen fuel instanceID userName joined
            aht rs
     /\ Spe.SetUserPop3UserNames self urlopen fuel instanceID userName listed aht rs
        = Spe.SetUserPop3UserNames self urlopen fuel instanceID userName joined
            aht rs
     /\ Spe.SetUserPrivileges self urlopen fuel instanceID userName listed aht rs
        = Spe.SetUserPrivileges self urlopen fuel instanceID userName joined aht rs
     /\ Spe.SetUserPrivilegesOnFolder self urlopen fuel instanceID userName folder
          listed aht rs
        = Spe.SetUserPrivilegesOnFolder self urlopen fuel instanceID userName
            folder joined aht rs)
  /\ (forall items,
        Exists (fun x => forall s, x <> JStr s) items ->
        Spe.CreateUser self urlopen fuel instanceID userName (JArr items) fullName
          distinguishedName authentication password' aht rs
        = (Raise TypeError, [])
        /\ Spe.SetUserEmailAddresses self urlopen fuel instanceID userName
             (JArr items) aht rs
           = (Raise TypeError, [])
        /\ Spe.SetUserPop3UserNames self urlopen fuel instanceID userName
             (JArr items) aht rs
           = (Raise TypeError, [])
        /\ Spe.SetUserPrivileges self urlopen fuel instanceID userName
             (JArr items) aht rs
           = (Raise TypeError, [])
        /\ Spe.SetUserPrivilegesOnFolder self urlopen fuel instanceID userName
             folder (JArr items) aht rs
           = (Raise TypeError, [])).
Proof.
  split.
  - intros l listed joined. subst listed joined.
    unfold Spe.CreateUser, Spe.SetUserEmailAddresses, Spe.SetUserPop3UserNames,
      Spe.SetUserPrivileges, Spe.SetUserPrivilegesOnFolder.
    rewrite join_list_argument_strings. repeat split.
  - intros items Hbad.
    unfold Spe.CreateUser, Spe.SetUserEmailAddresses, Spe.SetUserPop3UserNames,
      Spe.SetUserPrivileges, Spe.SetUserPrivilegesOnFolder.
    rewrite (join_list_argument_not_string items Hbad). repeat split.
Qed.

(** [CreateUser("x1", "jd", [None])]. *)
Lemma X14_spe_list_arguments_witness :
  Spe.CreateUser spe_Client (scripted []) 0 (JStr "x1") (JStr "jd")
    (JArr [JNull]) JNull JNull JNull JNull None []
  = (Raise TypeError, []).
Proof.
  apply (proj2 (X14_spe_list_arguments spe_Client (scripted []) 0
                  (JStr "x1") (JStr "jd") JNull JNull JNull JNull JNull None [])
           [JNull]).
  left. discriminate.
Defined.

(** ** The posted body *)

Lemma count_char_append c s1 s2 :
  count_char c (s1 ++ s2) = (count_char c s1 + count_char c s2)%nat.
Proof.
  induction s1 as [|c1 s1 IH]; cbn [append count_char]; [reflexivity|].
  rewrite IH. lia.
Qed.

(** What [quote_plus] makes of one character holds neither "&" nor "=". *)
Lemma quote_plus_char c :
  count_char "&" (quote_plus (String c EmptyString)) = O
  /\ count_char "=" (quote_plus (String c EmptyString)) = O.
Proof.
  destruct c as [[] [] [] [] [] [] [] []]; split; reflexivity.
Qed.

Lemma quote_plus_cons c s :
  quote_plus (String c s) = quote_plus (String c EmptyString) ++ quote_plus s.
Proof.
  cbn [quote_plus]. rewrite append_assoc. reflexivity.
Qed.

Lemma quote_plus_no_separator s :
  count_char "&" (quote_plus s) = O /\ count_char "=" (quote_plus s) = O.
Proof.
  induction s as [|c s [IH1 IH2]]; [split; reflexivity|].
  rewrite quote_plus_cons, !count_char_append, IH1, IH2.
  destruct (quote_plus_char c) as [-> ->]. split; reflexivity.
Qed.

Lemma urlencode_cons kv query :
  urlencode (kv :: query)
  = quote_plus (fst kv) ++ "=" ++ quote_plus (py_str (snd kv))
    ++ match query with
       | [] => EmptyString
       | _ :: _ => "&" ++ urlencode query
       end.
Proof.
  unfold urlencode, join. destruct query as [|kv' query]; cbn [map String.concat].
  - rewrite append_empty_r. reflexivity.
  - rewrite !append_assoc. reflexivity.
Qed.

Lemma urlencode_counts query :
  count_char "&" (urlencode query) = pred (List.length query)
  /\ count_char "=" (urlencode query) = List.length query.
Proof.
  induction query as [|kv query [IHa IHe]]; [split; reflexivity|].
  rewrite urlencode_cons, !count_char_append.
  destruct (quote_plus_no_separator (fst kv)) as [-> ->].
  destruct (quote_plus_no_separator (py_str (snd kv))) as [-> ->].
  destruct query as [|kv' query].
  - split; reflexivity.
  - rewrite !count_char_append, IHa, IHe. cbn. split; lia.
Qed.

(** X15.  No argument can smuggle a second one into a request.  Keys and
    values are escaped, so in the body of every request "=" occurs once for
    each argument sent and "&" only between two of them, whatever characters
    the values hold. *)
Theorem X15_body_separators
    (self : Client) (method : string) (arguments : list (string * json))
    (mode : string) :
  let body := data (request_of self method arguments mode) in
  count_char "=" body = List.length (marshal arguments)
  /\ count_char "&" body = pred (List.length (marshal arguments))
  /\ (NoDup (keys arguments) ->
      List.length (marshal arguments)
      = List.length (filter (fun kv => truthy (snd kv)) arguments)).
Proof.
  intros body. subst body. unfold request_of. cbn [data].
  destruct (urlencode_counts (marshal arguments)) as [Ha He].
  split; [exact He|]. split; [exact Ha|].
  intros Hnd. rewrite (marshal_filter arguments Hnd). reflexivity.
Qed.
